(** * GEOGloWS v2 REST shim: a shallow embedding of [lambda_function.py]

    The module under study is an AWS Lambda entry point.  It reads a path
    from the event, dispatches on its second segment to one of four
    handlers, reads a river discharge table from a remote array store,
    optionally filters or aggregates it, and answers with a small
    dictionary holding a status code and a body.

    The development is organised as follows.
    - Python values: the fragment of the Python data model the script
      touches (JSON-like values, exceptions, dictionaries, truthiness,
      [str.split], [repr], [json.dumps] on a string).
    - Calendar: timestamps and the two [strftime] patterns of the source.
    - Tables: data frames, [pivot], [to_csv(index=False)], boolean row
      selection, [groupby(...).mean()].
    - The world outside the script: the remote store, [int],
      [pandas.to_datetime], [DataFrame.to_json], the CSV dialect, float
      arithmetic.  They are fields of a record the script is read against.
    - The script: the seven functions of the source, in its order.
    - A sample world to run the script in, the vocabulary of the
      statements, and the properties, grouped by the part of the script
      they are about. *)

From Stdlib Require Import ZArith String Ascii List Lia Floats.
From Stdlib Require DecimalString.
From stdpp Require Import base option list gmap strings sorting.

Set Warnings "-register-all".
#[local] Open Scope string_scope.

(** ** Python values *)

(** An event is whatever the Lambda runtime decoded from JSON.  A Python
    [str] is modelled as a sequence of code points below 256. *)
Inductive pyval :=
| PNone
| PBool (b : bool)
| PInt (n : Z)
| PFloat (f : float)
| PStr (s : string)
| PList (l : list pyval)
| PDict (d : gmap string pyval).

Definition type_name (v : pyval) : string :=
  match v with
  | PNone => "NoneType"
  | PBool _ => "bool"
  | PInt _ => "int"
  | PFloat _ => "float"
  | PStr _ => "str"
  | PList _ => "list"
  | PDict _ => "dict"
  end.

(** Truth value testing, as used by [if x:]. *)
Definition truthy (v : pyval) : bool :=
  match v with
  | PNone => false
  | PBool b => b
  | PInt n => negb (n =? 0)%Z
  | PFloat f => negb (PrimFloat.eqb f 0%float)
  | PStr s => match s with EmptyString => false | String _ _ => true end
  | PList l => match l with [] => false | _ :: _ => true end
  | PDict d => negb (size d =? 0)%nat
  end.

(** [v == 'literal'] for a string literal on the right. *)
Definition eq_str (v : pyval) (s : string) : bool :=
  match v with
  | PStr t => String.eqb t s
  | _ => false
  end.

(** *** Exceptions *)

Inductive exn_class :=
| KeyError | IndexError | TypeError | AttributeError | ValueError
| OtherError.

(** An exception carries its class and the text [str(e)] yields. *)
Record exn := Exn { exn_cls : exn_class; exn_str : string }.

Inductive result (A : Type) :=
| Ok (a : A)
| Raise (e : exn).
Arguments Ok {A} a.
Arguments Raise {A} e.

#[global] Instance result_ret : MRet result := fun A a => Ok a.
#[global] Instance result_bind : MBind result := fun A B k m =>
  match m with
  | Ok a => k a
  | Raise e => Raise e
  end.

#[global] Instance result_fmap : FMap result := fun A B f m =>
  match m with
  | Ok a => Ok (f a)
  | Raise e => Raise e
  end.

Definition is_ValueError (e : exn) : bool :=
  match exn_cls e with ValueError => true | _ => false end.

(** *** Characters and text *)

Definition dquote : ascii := ascii_of_nat 34.
Definition squote : ascii := ascii_of_nat 39.
Definition backslash : ascii := ascii_of_nat 92.
Definition LF : ascii := ascii_of_nat 10.
Definition CR : ascii := ascii_of_nat 13.
Definition TAB : ascii := ascii_of_nat 9.

Definition str1 (c : ascii) : string := String c EmptyString.

Definition hex_digit (n : nat) : ascii :=
  match String.get n "0123456789abcdef" with
  | Some c => c
  | None => "0"%char
  end.

Definition hex2 (c : ascii) : string :=
  let n := nat_of_ascii c in
  String (hex_digit (n / 16)) (String (hex_digit (n mod 16)) EmptyString).

Fixpoint contains_char (c : ascii) (s : string) : bool :=
  match s with
  | EmptyString => false
  | String d s' => Ascii.eqb c d || contains_char c s'
  end.

Fixpoint concat_map (f : ascii -> string) (s : string) : string :=
  match s with
  | EmptyString => EmptyString
  | String c s' => f c +:+ concat_map f s'
  end.

(** [str.isprintable] on one code point below 256: controls (C0, DEL, C1),
    the no-break space and the soft hyphen are not printable. *)
Definition printable (c : ascii) : bool :=
  let n := nat_of_ascii c in
  ((32 <=? n) && (n <? 127) || (161 <=? n) && negb (n =? 173))%nat.

Definition repr_char (quote c : ascii) : string :=
  if Ascii.eqb c backslash then String backslash (str1 backslash)
  else if Ascii.eqb c quote then String backslash (str1 quote)
  else if Ascii.eqb c TAB then String backslash "t"
  else if Ascii.eqb c LF then String backslash "n"
  else if Ascii.eqb c CR then String backslash "r"
  else if printable c then str1 c
  else String backslash (String "x" (hex2 c)).

(** [repr(s)] for a [str]: single quotes unless the text has a single
    quote and no double quote. *)
Definition repr_str (s : string) : string :=
  let quote :=
    if contains_char squote s && negb (contains_char dquote s)
    then dquote else squote in
  String quote (concat_map (repr_char quote) s +:+ str1 quote).

Fixpoint join (sep : string) (l : list string) : string :=
  match l with
  | [] => ""
  | [x] => x
  | x :: rest => x +:+ sep +:+ join sep rest
  end.

(** [repr] of a list of [str], as an f-string interpolates it. *)
Definition repr_list (l : list string) : string :=
  "[" +:+ join ", " (map repr_str l) +:+ "]".

(** [str(n)] for an [int]. *)
Definition str_int (n : Z) : string :=
  DecimalString.NilZero.string_of_int (Z.to_int n).

(** [s.split(sep)] for a one-character separator; never empty. *)
Fixpoint split (sep : ascii) (s : string) : list string :=
  match s with
  | EmptyString => [""]
  | String c s' =>
      if Ascii.eqb c sep then "" :: split sep s'
      else match split sep s' with
           | [] => [str1 c]
           | w :: ws => String c w :: ws
           end
  end.

(** *** Dictionaries *)

Definition no_attribute (v : pyval) (attr : string) : exn :=
  Exn AttributeError
      ("'" +:+ type_name v +:+ "' object has no attribute '" +:+ attr +:+ "'").

(** [v.get(k, False)] *)
Definition dict_get (v : pyval) (k : string) : result pyval :=
  match v with
  | PDict d => Ok (default (PBool false) (d !! k))
  | _ => Raise (no_attribute v "get")
  end.

(** [v[k]] for a string key [k] (messages as CPython 3.11 words them). *)
Definition getitem (v : pyval) (k : string) : result pyval :=
  match v with
  | PDict d =>
      match d !! k with
      | Some x => Ok x
      | None => Raise (Exn KeyError (repr_str k))
      end
  | PStr _ => Raise (Exn TypeError "string indices must be integers, not 'str'")
  | PList _ =>
      Raise (Exn TypeError "list indices must be integers or slices, not str")
  | _ => Raise (Exn TypeError ("'" +:+ type_name v +:+ "' object is not subscriptable"))
  end.

(** [v.split('/')]: only a [str] has the method. *)
Definition split_method (v : pyval) : result (list string) :=
  match v with
  | PStr s => Ok (split "/" s)
  | _ => Raise (no_attribute v "split")
  end.

(** *** [json.dumps] *)

(** One character under [ensure_ascii=True]: the two specials and the five
    named controls have short escapes, printable ASCII stands for itself,
    everything else is a [\u00XX] escape. *)
Definition json_escape_char (c : ascii) : string :=
  let n := nat_of_ascii c in
  if Ascii.eqb c dquote then String backslash (str1 dquote)
  else if Ascii.eqb c backslash then String backslash (str1 backslash)
  else if Ascii.eqb c LF then String backslash "n"
  else if Ascii.eqb c CR then String backslash "r"
  else if Ascii.eqb c TAB then String backslash "t"
  else if (n =? 8)%nat then String backslash "b"
  else if (n =? 12)%nat then String backslash "f"
  else if ((32 <=? n) && (n <? 127))%nat then str1 c
  else String backslash ("u00" +:+ hex2 c).

(** [json.dumps(s)] for a [str]: the escaped text between double quotes. *)
Definition json_dumps_str (s : string) : string :=
  String dquote (concat_map json_escape_char s +:+ str1 dquote).

(** ** Calendar *)

(** A timestamp is a count of nanoseconds since 1970-01-01T00:00:00, the
    representation of a [datetime64[ns]] index.  The calendar date of a day
    number follows the proleptic Gregorian calendar, computed over 400-year
    eras that start on 1 March. *)
Module Calendar.
#[local] Open Scope Z_scope.

Definition ns_per_day : Z := 86400000000000.

Definition day_number (t : Z) : Z := t / ns_per_day.

(** Day within the 400-year era, [0 .. 146096]. *)
Definition day_of_era (day : Z) : Z := (day + 719468) mod 146097.

Definition year_of_era (doe : Z) : Z :=
  (doe - doe / 1460 + doe / 36524 - doe / 146096) / 365.

(** Day within the year that starts on 1 March, [0 .. 365]. *)
Definition day_of_year (doe : Z) : Z :=
  let yoe := year_of_era doe in
  doe - (365 * yoe + yoe / 4 - yoe / 100).

(** Month counted from March, [0 .. 11]. *)
Definition month_from_march (doy : Z) : Z := (5 * doy + 2) / 153.

Definition month_of_doy (doy : Z) : Z :=
  let mp := month_from_march doy in
  if mp <? 10 then mp + 3 else mp - 9.

Definition day_of_doy (doy : Z) : Z :=
  doy - (153 * month_from_march doy + 2) / 5 + 1.

Definition doy_of (t : Z) : Z := day_of_year (day_of_era (day_number t)).

Definition month (t : Z) : Z := month_of_doy (doy_of t).
Definition day (t : Z) : Z := day_of_doy (doy_of t).

(** A number below 100 on two digits, as [%m] and [%d] print it. *)
Definition two_digits (n : Z) : string :=
  if n <? 10 then "0" +:+ str_int n else str_int n.

Definition md_of_doy (doy : Z) : string :=
  two_digits (month_of_doy doy) +:+ two_digits (day_of_doy doy).

Definition m_of_month (m : Z) : string := two_digits m.

(** [t.strftime('%m%d')] *)
Definition strftime_md (t : Z) : string := md_of_doy (doy_of t).

(** [t.strftime('%m')] *)
Definition strftime_m (t : Z) : string := m_of_month (month t).

End Calendar.

(** ** Tables *)

Inductive column_label :=
| CInt (n : Z)
| CStr (s : string).

Definition label_text (c : column_label) : string :=
  match c with
  | CInt n => str_int n
  | CStr s => s
  end.

(** The row labels a frame of this program can carry: timestamps, group
    keys, or whatever labels the return period store uses. *)
Inductive index_label :=
| ITime (ns : Z)
| IKey (s : string)
| IInt (n : Z).

(** A data frame, row by row: each row is its index label and one cell
    per column. *)
Record DataFrame (I cell : Type) := Frame {
  columns : list column_label;
  rows : list (I * list cell)
}.
Arguments Frame {I cell} columns rows.
Arguments columns {I cell} d.
Arguments rows {I cell} d.

Definition index {I cell} (df : DataFrame I cell) : list I := map fst (rows df).

Definition relabel {I J cell} (f : I -> J) (df : DataFrame I cell) : DataFrame J cell :=
  Frame (columns df) (map (fun r => (f (fst r), snd r)) (rows df)).

(** [df[mask]] where the mask is computed from the index alone. *)
Definition select_rows {I cell} (keep : I -> bool) (df : DataFrame I cell)
  : DataFrame I cell :=
  Frame (columns df) (List.filter (fun r => keep (fst r)) (rows df)).

(** [index <= ts] and [index >= ts] against a scalar; [None] is [NaT],
    which compares false with everything. *)
Definition index_le (ts : option Z) (t : Z) : bool :=
  match ts with
  | Some b => (t <=? b)%Z
  | None => false
  end.

Definition index_ge (ts : option Z) (t : Z) : bool :=
  match ts with
  | Some b => (b <=? t)%Z
  | None => false
  end.

(** The order of two rows by their time.  Keys are ordered as Python
    compares [str], code point by code point: [String.le]. *)
Definition by_time {cell} : relation (Z * cell) := fun a b => (fst a <= fst b)%Z.

#[global] Instance by_time_dec {cell} (a b : Z * cell) : Decision (by_time a b) :=
  decide (fst a <= fst b)%Z.

(** [.reset_index().set_index('time').pivot(columns='rivid', values='Qout')]
    on the frame of one selected reach: unstacking refuses a repeated time,
    sorts the index, and names the single resulting column after the one
    value of [rivid], the selected reach.  A frame without rows unstacks to
    a frame without columns. *)
Definition pivot {cell} (reach_id : Z) (series : list (Z * cell))
  : result (DataFrame Z cell) :=
  if bool_decide (NoDup (map fst series)) then
    Ok (Frame (match series with [] => [] | _ :: _ => [CInt reach_id] end)
              (map (fun r => (fst r, [snd r]))
                   (merge_sort by_time series)))
  else Raise (Exn ValueError "Index contains duplicate entries, cannot reshape").

(** The entries of column [j] in a list of rows. *)
Definition column_values {I cell} (j : nat) (rs : list (I * list cell)) : list cell :=
  omap (fun r => snd r !! j) rs.

Definition group_keys (key : Z -> string) (idx : list Z) : list string :=
  merge_sort String.le (remove_dups (key <$> idx)).

(** [df.groupby(key(df.index)).mean()]: one row per distinct key, in the
    order of the keys, each cell the mean of its group's column. *)
Definition groupby_mean {cell} (mean : list cell -> cell) (key : Z -> string)
    (df : DataFrame Z cell) : DataFrame string cell :=
  Frame (columns df)
        (map (fun k =>
                let group :=
                  List.filter (fun r => String.eqb (key (fst r)) k) (rows df) in
                (k, map (fun j => mean (column_values j group))
                        (seq 0 (length (columns df)))))
             (group_keys key (index df))).

(** ** The world outside the script *)

Record World := {
  (** a [float64] entry of a table *)
  cell : Type;
  (** its text in a CSV field (empty for a missing value) *)
  float_text : cell -> string;
  (** the mean of a group's column, missing values skipped *)
  mean : list cell -> cell;
  (** one record of the CSV dialect, terminator included *)
  csv_writerow : list string -> string;
  (** [int(s)] on a [str]; [None] stands for [ValueError] *)
  int_of_str : string -> option Z;
  (** [xr.open_zarr(retrospective.zarr).sel(rivid=r).to_pandas()]: time
      and [Qout] of every row, or the exception the chain raises *)
  select_retrospective : Z -> result (list (Z * cell));
  (** [xr.open_zarr(return-periods.zarr).sel(rivid=r).to_dataframe()] *)
  select_returnperiods : Z -> result (DataFrame index_label cell);
  (** [pd.to_datetime(v)] as the operand of a comparison with the index:
      a timestamp, [NaT], or the exception raised by parsing or by the
      comparison that follows (a value with a time zone, an array) *)
  to_datetime : pyval -> result (option Z);
  (** [df.to_json(index=False)], which the library may refuse *)
  to_json : DataFrame index_label cell -> result string;
  (** [json.dumps(v)] for a value that is not a [str] *)
  json_dumps_value : pyval -> string
}.

(** [json.dumps] *)
Definition json_dumps (W : World) (v : pyval) : string :=
  match v with
  | PStr s => json_dumps_str s
  | _ => json_dumps_value W v
  end.

(** [df.to_csv(index=False)]: the header record lists the column labels,
    then one record per row lists its cells; row labels are not written. *)
Definition to_csv (W : World) {I} (df : DataFrame I (cell W)) : string :=
  csv_writerow W (map label_text (columns df))
  +:+ fold_right String.append ""
        (map (fun r => csv_writerow W (map (float_text W) (snd r))) (rows df)).

(** ** The script *)

(** [check_if_valid_request] returns either the path or a dictionary. *)
Inductive request :=
| Path (path : list string)
| Rejected (envelope : pyval).

(** [l[i]] on a list *)
Definition list_getitem (l : list string) (i : nat) : result string :=
  match l !! i with
  | Some x => Ok x
  | None => Raise (Exn IndexError "list index out of range")
  end.

(** [int(s)] *)
Definition int (W : World) (s : string) : result Z :=
  match int_of_str W s with
  | Some n => Ok n
  | None =>
      Raise (Exn ValueError ("invalid literal for int() with base 10: " +:+ repr_str s))
  end.

Section Script.

Variable W : World.

(** Lines 12-36. *)
Definition _retrospective (reach_id : Z) (params : pyval)
  : result (DataFrame Z (cell W)) :=
  series ← select_retrospective W reach_id;
  df ← pivot reach_id series;
  end_date ← dict_get params "end_date";
  df ← (if truthy end_date then
          v ← getitem params "end_date";
          ts ← to_datetime W v;
          Ok (select_rows (index_le ts) df)
        else Ok df);
  start_date ← dict_get params "start_date";
  df ← (if truthy start_date then
          v ← getitem params "start_date";
          ts ← to_datetime W v;
          Ok (select_rows (index_ge ts) df)
        else Ok df);
  Ok df.

(** Lines 38-72. *)
Definition retrospective (path : list string) (event : pyval) : result pyval :=
  if negb (2 <? length path)%nat then
    Ok (PDict {[ "statesCode" := PInt 422;
                 "body" := PStr "Bad request: No reachID specified" ]})
  else
    match (qsp ← dict_get event "queryStringParameters";
           params ← (if truthy qsp then getitem event "queryStringParameters"
                     else Ok (PDict ∅));
           segment ← list_getitem path 2;
           reach_id ← int W segment;
           Ok (params, reach_id)) with
    | Raise e =>
        if is_ValueError e then
          segment ← list_getitem path 2;
          Ok (PDict {[ "statesCode" := PInt 400;
                       "body" := PStr ("Bad request: couldn't make " +:+ segment
                                       +:+ " into an integer") ]})
        else Raise e
    | Ok (params, reach_id) =>
        df ← _retrospective reach_id params;
        fmt ← dict_get params "format";
        output ← (if truthy fmt then
                    f ← getitem params "format";
                    if eq_str f "csv" then Ok (to_csv W df)
                    else
                      f ← getitem params "format";
                      if eq_str f "json" then to_json W (relabel ITime df)
                      else Raise (Exn ValueError "")
                  else Ok (to_csv W df));
        Ok (PDict {[ "statusCode" := PInt 200;
                     "body" := PStr (json_dumps W (PStr output)) ]})
    end.

(** Lines 74-95.  The bare [except] swallows every failure of the
    look-ups, whatever its class. *)
Definition check_if_valid_request (event : pyval) : request :=
  match (rc ← getitem event "requestContext";
         http ← getitem rc "http";
         p ← getitem http "path";
         parts ← split_method p;
         let path := drop 1 parts in
         Ok (match path with
             | first :: _ =>
                 if negb (String.eqb first "v2") then
                   Rejected (PDict {[ "statesCode" := PInt 422;
                                      "body" := PStr ("No V2 in " +:+ repr_list path) ]})
                 else Path path
             | [] => Path path
             end)) with
  | Ok r => r
  | Raise _ =>
      Rejected (PDict {[ "statesCode" := PInt 400; "body" := PStr "Bad request" ]})
  end.

(** Lines 97-133. *)
Definition daily_averages (path : list string) (event : pyval) : result pyval :=
  if negb (2 <? length path)%nat then
    Ok (PDict {[ "statesCode" := PInt 422;
                 "body" := PStr "Bad request: No reachID specified" ]})
  else
    match (rc ← getitem event "requestContext";
           qsp ← dict_get rc "queryStringParameters";
           params ← (if truthy qsp then
                       rc ← getitem event "requestContext";
                       getitem rc "queryStringParameters"
                     else Ok (PDict ∅));
           segment ← list_getitem path 2;
           reach_id ← int W segment;
           Ok (params, reach_id)) with
    | Raise e =>
        if is_ValueError e then
          segment ← list_getitem path 2;
          Ok (PDict {[ "statesCode" := PInt 400;
                       "body" := PStr ("Bad request: couldn't make " +:+ segment
                                       +:+ " into an integer") ]})
        else Raise e
    | Ok (params, reach_id) =>
        df ← _retrospective reach_id (PDict ∅);
        let df := groupby_mean (mean W) Calendar.strftime_md df in
        fmt ← dict_get params "format";
        output ← (if truthy fmt then
                    f ← getitem params "format";
                    if eq_str f "csv" then Ok (to_csv W df)
                    else
                      f ← getitem params "format";
                      if eq_str f "json" then to_json W (relabel IKey df)
                      else Raise (Exn ValueError "")
                  else Ok (to_csv W df));
        Ok (PDict {[ "statusCode" := PInt 200;
                     "body" := PStr (json_dumps W (PStr output)) ]})
    end.

(** Lines 135-171. *)
Definition monthly_averages (path : list string) (event : pyval) : result pyval :=
  if negb (2 <? length path)%nat then
    Ok (PDict {[ "statesCode" := PInt 422;
                 "body" := PStr "Bad request: No reachID specified" ]})
  else
    match (rc ← getitem event "requestContext";
           qsp ← dict_get rc "queryStringParameters";
           params ← (if truthy qsp then
                       rc ← getitem event "requestContext";
                       getitem rc "queryStringParameters"
                     else Ok (PDict ∅));
           segment ← list_getitem path 2;
           reach_id ← int W segment;
           Ok (params, reach_id)) with
    | Raise e =>
        if is_ValueError e then
          segment ← list_getitem path 2;
          Ok (PDict {[ "statesCode" := PInt 400;
                       "body" := PStr ("Bad request: couldn't make " +:+ segment
                                       +:+ " into an integer") ]})
        else Raise e
    | Ok (params, reach_id) =>
        df ← _retrospective reach_id (PDict ∅);
        let df := groupby_mean (mean W) Calendar.strftime_m df in
        fmt ← dict_get params "format";
        output ← (if truthy fmt then
                    f ← getitem params "format";
                    if eq_str f "csv" then Ok (to_csv W df)
                    else
                      f ← getitem params "format";
                      if eq_str f "json" then to_json W (relabel IKey df)
                      else Raise (Exn ValueError "")
                  else Ok (to_csv W df));
        Ok (PDict {[ "statusCode" := PInt 200;
                     "body" := PStr (json_dumps W (PStr output)) ]})
    end.

(** Lines 173-210. *)
Definition returnperiods (path : list string) (event : pyval) : result pyval :=
  if negb (2 <? length path)%nat then
    Ok (PDict {[ "statesCode" := PInt 422;
                 "body" := PStr "Bad request: No reachID specified" ]})
  else
    match (rc ← getitem event "requestContext";
           qsp ← dict_get rc "queryStringParameters";
           params ← (if truthy qsp then
                       rc ← getitem event "requestContext";
                       getitem rc "queryStringParameters"
                     else Ok (PDict ∅));
           segment ← list_getitem path 2;
           reach_id ← int W segment;
           Ok (params, reach_id)) with
    | Raise e =>
        if is_ValueError e then
          segment ← list_getitem path 2;
          Ok (PDict {[ "statesCode" := PInt 400;
                       "body" := PStr ("Bad request: couldn't make " +:+ segment
                                       +:+ " into an integer") ]})
        else Raise e
    | Ok (params, reach_id) =>
        df ← select_returnperiods W reach_id;
        fmt ← dict_get params "format";
        output ← (if truthy fmt then
                    f ← getitem params "format";
                    if eq_str f "csv" then Ok (to_csv W df)
                    else
                      f ← getitem params "format";
                      if eq_str f "json" then to_json W df
                      else Raise (Exn ValueError "")
                  else Ok (to_csv W df));
        Ok (PDict {[ "statusCode" := PInt 200;
                     "body" := PStr (json_dumps W (PStr output)) ]})
    end.

(** The body of the [try] of [lambda_handler], lines 225-236: [Some r]
    when a branch returned [r], [None] when control left the [try]
    without returning.  [len] is defined on a list and on a dictionary
    alike, and line 226 guards a [pass]; indexing the dictionary of a
    rejected request with [1] is a [KeyError]. *)
Definition dispatch (event : pyval) : result (option pyval) :=
  match check_if_valid_request event with
  | Rejected _ => Raise (Exn KeyError "1")
  | Path path =>
      endpoint ← list_getitem path 1;
      if String.eqb endpoint "retrospective" then
        Some <$> retrospective path event
      else if String.eqb endpoint "daily_averages" then
        Some <$> daily_averages path event
      else if String.eqb endpoint "monthly_averages" then
        Some <$> monthly_averages path event
      else if String.eqb endpoint "returnperiods" then
        Some <$> returnperiods path event
      else Ok None
  end.

(** Lines 212-244. *)
Definition lambda_handler (event context : pyval) : pyval :=
  match dispatch event with
  | Ok (Some response) => response
  | Raise e =>
      PDict {[ "statesCode" := PInt 400;
               "body" := PStr ("Bad request: " +:+ exn_str e) ]}
  | Ok None =>
      PDict {[ "statusCode" := PInt 200;
               "body" := PStr (json_dumps W event) ]}
  end.

End Script.

(** ** A sample world

    A small store and simple stand-ins for the library calls, used to run
    the script on concrete events.  Cells are whole numbers; the store
    knows one reach, 12345678, with four daily values around the new year
    of 2020; dates are read in the form [YYYY-MM-DD]. *)
Module Sample.

Definition digit_value (c : ascii) : option Z :=
  let n := nat_of_ascii c in
  if ((48 <=? n) && (n <=? 57))%nat then Some (Z.of_nat n - 48)%Z else None.

Fixpoint digits_value (acc : Z) (s : string) : option Z :=
  match s with
  | EmptyString => Some acc
  | String c s' =>
      match digit_value c with
      | Some d => digits_value (10 * acc + d)%Z s'
      | None => None
      end
  end.

(** Decimal digits with an optional minus sign. *)
Definition parse_int (s : string) : option Z :=
  match s with
  | EmptyString => None
  | String c s' =>
      if Ascii.eqb c "-" then
        match s' with
        | EmptyString => None
        | _ => Z.opp <$> digits_value 0 s'
        end
      else digits_value 0 s
  end.

Definition days_from_civil (y m d : Z) : Z :=
  let y := (if m <=? 2 then y - 1 else y)%Z in
  let era := (y / 400)%Z in
  let yoe := (y - era * 400)%Z in
  let mp := (if 2 <? m then m - 3 else m + 9)%Z in
  let doy := ((153 * mp + 2) / 5 + d - 1)%Z in
  let doe := (yoe * 365 + yoe / 4 - yoe / 100 + doy)%Z in
  (era * 146097 + doe - 719468)%Z.

Definition midnight (y m d : Z) : Z :=
  (days_from_civil y m d * Calendar.ns_per_day)%Z.

(** [YYYY-MM-DD] to the timestamp of its midnight. *)
Definition parse_date (s : string) : option Z :=
  if negb (String.length s =? 10)%nat then None
  else
    match digits_value 0 (substring 0 4 s),
          digits_value 0 (substring 5 2 s),
          digits_value 0 (substring 8 2 s) with
    | Some y, Some m, Some d =>
        if String.eqb (substring 4 1 s) "-" && String.eqb (substring 7 1 s) "-"
           && (1 <=? m)%Z && (m <=? 12)%Z && (1 <=? d)%Z && (d <=? 31)%Z
        then Some (midnight y m d) else None
    | _, _, _ => None
    end.

Definition read_datetime (v : pyval) : result (option Z) :=
  match v with
  | PStr s =>
      if String.eqb s "NaT" then Ok None
      else match parse_date s with
           | Some t => Ok (Some t)
           | None =>
               Raise (Exn ValueError
                        ("Unknown datetime string format, unable to parse: " +:+ s))
           end
  | _ => Raise (Exn TypeError ("Cannot convert input of type " +:+ type_name v))
  end.

Definition series : list (Z * Z) :=
  [ (midnight 2019 12 31, 1400); (midnight 2020 1 1, 1500);
    (midnight 2020 1 2, 1600); (midnight 2020 1 3, 1700) ]%Z.

Definition retrospective_store (reach_id : Z) : result (list (Z * Z)) :=
  if (reach_id =? 12345678)%Z then Ok series
  else Raise (Exn KeyError (str_int reach_id)).

Definition returnperiods_store (reach_id : Z) : result (DataFrame index_label Z) :=
  if (reach_id =? 12345678)%Z then
    Ok (Frame [CStr "return_period_2"; CStr "return_period_5"]
              [(IInt 12345678, [2100; 3200]%Z)])
  else Raise (Exn KeyError (str_int reach_id)).

Definition floor_mean (l : list Z) : Z :=
  (fold_right Z.add 0 l / Z.of_nat (length l))%Z.

Definition plain_writerow (fields : list string) : string :=
  join "," fields +:+ str1 LF.

(** [DataFrame.to_json] as released before pandas 2.1: without an
    [orient] of [split] or [table], [index=False] is refused. *)
Definition to_json_refused (df : DataFrame index_label Z) : result string :=
  Raise (Exn ValueError
           "'index=False' is only valid when 'orient' is 'split' or 'table'").

(** The text of a row label as a JSON object key: a timestamp counts
    milliseconds since the epoch. *)
Definition index_text (i : index_label) : string :=
  match i with
  | ITime ns => str_int (ns / 1000000)
  | IKey s => s
  | IInt n => str_int n
  end.

(** One column: its label, then its cells keyed by the row labels. *)
Definition column_json (rs : list (index_label * list Z)) (j : nat)
    (c : column_label) : string :=
  json_dumps_str (label_text c) +:+ ":{"
  +:+ join "," (map (fun r => json_dumps_str (index_text (fst r)) +:+ ":"
                              +:+ match snd r !! j with
                                  | Some v => str_int v
                                  | None => "null"
                                  end) rs)
  +:+ "}".

(** [DataFrame.to_json] as released since pandas 2.1: with [orient] left
    unset the call is accepted and the flag has no effect on the default
    layout, one object per column keyed by the row labels. *)
Definition to_json_accepted (df : DataFrame index_label Z) : result string :=
  Ok ("{" +:+ join "," (imap (column_json (rows df)) (columns df)) +:+ "}").

Definition dumps_type (v : pyval) : string := "<" +:+ type_name v +:+ ">".

Definition world (to_json : DataFrame index_label Z -> result string) : World :=
  {| cell := Z;
     float_text := str_int;
     mean := floor_mean;
     csv_writerow := plain_writerow;
     int_of_str := parse_int;
     select_retrospective := retrospective_store;
     select_returnperiods := returnperiods_store;
     to_datetime := read_datetime;
     to_json := to_json;
     json_dumps_value := dumps_type |}.

Definition strict : World := world to_json_refused.
Definition lenient : World := world to_json_accepted.

(** An HTTP API event: the path under [requestContext.http], the query
    parameters at the top level and, for the three other endpoints,
    under [requestContext] as well. *)
Definition http_event (path : string) (top nested : option pyval) : pyval :=
  let rc : gmap string pyval :=
    {[ "http" := PDict {[ "path" := PStr path; "method" := PStr "GET" ]} ]} in
  let rc := match nested with
            | Some q => <["queryStringParameters" := q]> rc
            | None => rc
            end in
  let ev : gmap string pyval := {[ "requestContext" := PDict rc ]} in
  PDict (match top with
         | Some q => <["queryStringParameters" := q]> ev
         | None => ev
         end).

Definition query (l : list (string * string)) : pyval :=
  PDict (list_to_map (map (fun kv => (fst kv, PStr (snd kv))) l)).

End Sample.

(** ** Vocabulary of the statements *)

(** The path segments of an event: the text at [requestContext.http.path]
    cut at every slash, without the piece before the first slash. *)
Definition event_path (event : pyval) : option (list string) :=
  match event with
  | PDict d =>
      match d !! "requestContext" with
      | Some (PDict rc) =>
          match rc !! "http" with
          | Some (PDict http) =>
              match http !! "path" with
              | Some (PStr s) => Some (drop 1 (split "/" s))
              | _ => None
              end
          | _ => None
          end
      | _ => None
      end
  | _ => None
  end.

Definition recognized (endpoint : string) : bool :=
  String.eqb endpoint "retrospective" || String.eqb endpoint "daily_averages"
  || String.eqb endpoint "monthly_averages" || String.eqb endpoint "returnperiods".

(** The integer a response carries as its status: the one under
    [statusCode] or, on the error paths of the script, under [statesCode]. *)
Definition code_of (response : pyval) : option Z :=
  match response with
  | PDict d =>
      match d !! "statusCode" with
      | Some (PInt c) => Some c
      | _ => match d !! "statesCode" with
             | Some (PInt c) => Some c
             | _ => None
             end
      end
  | _ => None
  end.

Definition body_of (response : pyval) : option string :=
  match response with
  | PDict d => match d !! "body" with Some (PStr b) => Some b | _ => None end
  | _ => None
  end.

(** A success carries its code under the key [statusCode]. *)
Definition successful (response : pyval) : Prop :=
  exists d, response = PDict d /\ is_Some (d !! "statusCode").

(** The container an endpoint looks its query parameters up in: the event
    itself for [retrospective], [event["requestContext"]] for the others. *)
Definition endpoint_site (endpoint : string) (event : pyval) : result pyval :=
  if String.eqb endpoint "retrospective" then Ok event
  else getitem event "requestContext".

(** The table an endpoint formats, with its row labels. *)
Definition endpoint_table (W : World) (endpoint : string) (reach_id : Z)
    (params : pyval) : result (DataFrame index_label (cell W)) :=
  if String.eqb endpoint "retrospective" then
    relabel ITime <$> _retrospective W reach_id params
  else if String.eqb endpoint "daily_averages" then
    (fun df => relabel IKey (groupby_mean (mean W) Calendar.strftime_md df))
      <$> _retrospective W reach_id (PDict ∅)
  else if String.eqb endpoint "monthly_averages" then
    (fun df => relabel IKey (groupby_mean (mean W) Calendar.strftime_m df))
      <$> _retrospective W reach_id (PDict ∅)
  else select_returnperiods W reach_id.

(** The parameters and the reach a handler works with: the [try] block
    shared by the four handlers. *)
Definition parse_request (W : World) (endpoint : string) (path : list string)
    (event : pyval) : result (pyval * Z) :=
  site ← endpoint_site endpoint event;
  qsp ← dict_get site "queryStringParameters";
  params ← (if truthy qsp then
              site ← endpoint_site endpoint event;
              getitem site "queryStringParameters"
            else Ok (PDict ∅));
  segment ← list_getitem path 2;
  reach_id ← int W segment;
  Ok (params, reach_id).

(** The text a handler puts in the body: the [format] block shared by the
    four handlers. *)
Definition output_of (W : World) (params : pyval)
    (df : DataFrame index_label (cell W)) : result string :=
  fmt ← dict_get params "format";
  if truthy fmt then
    f ← getitem params "format";
    if eq_str f "csv" then Ok (to_csv W df)
    else
      f ← getitem params "format";
      if eq_str f "json" then to_json W df
      else Raise (Exn ValueError "")
  else Ok (to_csv W df).

(** The common shape of the four handlers. *)
Definition handler_shape (W : World) (endpoint : string) (path : list string)
    (event : pyval) : result pyval :=
  if negb (2 <? length path)%nat then
    Ok (PDict {[ "statesCode" := PInt 422;
                 "body" := PStr "Bad request: No reachID specified" ]})
  else
    match parse_request W endpoint path event with
    | Raise e =>
        if is_ValueError e then
          segment ← list_getitem path 2;
          Ok (PDict {[ "statesCode" := PInt 400;
                       "body" := PStr ("Bad request: couldn't make " +:+ segment
                                       +:+ " into an integer") ]})
        else Raise e
    | Ok (params, reach_id) =>
        df ← endpoint_table W endpoint reach_id params;
        output ← output_of W params df;
        Ok (PDict {[ "statusCode" := PInt 200;
                     "body" := PStr (json_dumps_str output) ]})
    end.

(** The handler [lambda_handler] calls for an endpoint name. *)
Definition handler_of (W : World) (endpoint : string)
  : list string -> pyval -> result pyval :=
  if String.eqb endpoint "retrospective" then retrospective W
  else if String.eqb endpoint "daily_averages" then daily_averages W
  else if String.eqb endpoint "monthly_averages" then monthly_averages W
  else returnperiods W.

(** The value an endpoint takes its query parameters from. *)
Definition query_parameters (endpoint : string) (event : pyval) : result pyval :=
  site ← endpoint_site endpoint event; dict_get site "queryStringParameters".

(** *** Reading a JSON string back *)

Definition hex_value (c : ascii) : nat :=
  let n := nat_of_ascii c in
  if ((48 <=? n) && (n <=? 57))%nat then n - 48
  else if ((97 <=? n) && (n <=? 102))%nat then n - 87
  else 0.

(** The character a two-character escape stands for. *)
Definition unescape_named (c : ascii) : ascii :=
  if Ascii.eqb c "n" then LF
  else if Ascii.eqb c "r" then CR
  else if Ascii.eqb c "t" then TAB
  else if Ascii.eqb c "b" then ascii_of_nat 8
  else if Ascii.eqb c "f" then ascii_of_nat 12
  else c.

(** The text of a JSON string, read from just after its opening quote up
    to its closing quote. *)
Fixpoint json_unescape (s : string) : string :=
  match s with
  | EmptyString => EmptyString
  | String c rest =>
      if Ascii.eqb c dquote then EmptyString
      else if Ascii.eqb c backslash then
        match rest with
        | EmptyString => EmptyString
        | String e rest' =>
            if Ascii.eqb e "u" then
              match rest' with
              | String _ (String _ (String h (String l rest''))) =>
                  String (ascii_of_nat (16 * hex_value h + hex_value l))
                         (json_unescape rest'')
              | _ => EmptyString
              end
            else String (unescape_named e) (json_unescape rest')
        end
      else String c (json_unescape rest)
  end.

(** [json.loads] on the encoding of a [str]. *)
Definition json_loads_str (s : string) : option string :=
  match s with
  | String c rest => if Ascii.eqb c dquote then Some (json_unescape rest) else None
  | EmptyString => None
  end.


(** The records of the CSV text of a reach's table: one for the header,
    then one per row. *)
Definition retrospective_csv (W : World) (reach_id : Z)
    (series : list (Z * cell W)) : string :=
  csv_writerow W (match series with [] => [] | _ :: _ => [str_int reach_id] end)
  +:+ fold_right String.append ""
        (map (fun r => csv_writerow W [float_text W (snd r)])
             (merge_sort by_time series)).

(** The date filter in the words of its contract: both bounds are
    inclusive, and a bound that is not given does not restrict. *)
Definition in_range (start_date end_date : option Z) (t : Z) : bool :=
  match start_date with Some s => (s <=? t)%Z | None => true end
  && match end_date with Some e => (t <=? e)%Z | None => true end.

Definition filter_range {cell} (start_date end_date : option Z)
    (df : DataFrame Z cell) : DataFrame Z cell :=
  select_rows (in_range start_date end_date) df.

(** A date parameter as the claim words it: either no such key, in which
    case there is no bound, or a value that the parser turns into a
    timestamp, which is the bound. *)
Definition date_bound (W : World) (d : gmap string pyval) (key : string)
    (bound : option Z) : Prop :=
  (d !! key = None /\ bound = None)
  \/ (exists v t, d !! key = Some v /\ truthy v = true
                  /\ to_datetime W v = Ok (Some t) /\ bound = Some t).

(** Two dictionaries that agree on every key but one. *)
Definition same_except (key : string) (d1 d2 : gmap string pyval) : Prop :=
  forall k, k <> key -> d1 !! k = d2 !! k.

(** Two events that differ at most in the top-level
    [queryStringParameters]. *)
Definition differ_at_top (e1 e2 : pyval) : Prop :=
  exists d1 d2, e1 = PDict d1 /\ e2 = PDict d2
                /\ same_except "queryStringParameters" d1 d2.

(** Two events that differ at most in
    [requestContext.queryStringParameters]. *)
Definition differ_at_nested (e1 e2 : pyval) : Prop :=
  exists d1 d2 c1 c2,
    e1 = PDict d1 /\ e2 = PDict d2
    /\ same_except "requestContext" d1 d2
    /\ d1 !! "requestContext" = Some (PDict c1)
    /\ d2 !! "requestContext" = Some (PDict c2)
    /\ same_except "queryStringParameters" c1 c2.

(** The text is the table in one of the two formats. *)
Definition formatted_as (W : World) (table : DataFrame index_label (cell W))
    (text : string) : Prop :=
  text = to_csv W table \/ to_json W table = Ok text.

(** The text of a table under a [format] value as the handlers read it:
    no value or a false one means CSV, [csv] and [json] name the two
    formats, anything else is the bare [ValueError]. *)
Definition format_text (W : World) (choice : option pyval)
    (df : DataFrame index_label (cell W)) : result string :=
  match choice with
  | None => Ok (to_csv W df)
  | Some v =>
      if truthy v then
        if eq_str v "csv" then Ok (to_csv W df)
        else if eq_str v "json" then to_json W df
        else Raise (Exn ValueError "")
      else Ok (to_csv W df)
  end.

(** Every character is printable ASCII, space to tilde. *)
Fixpoint printable_ascii (s : string) : bool :=
  match s with
  | EmptyString => true
  | String c rest =>
      let n := nat_of_ascii c in
      ((32 <=? n) && (n <=? 126))%nat && printable_ascii rest
  end.


(** The Gregorian rule for leap years and the length of a month. *)
Definition leap_year (y : Z) : bool :=
  ((y mod 4 =? 0) && (negb (y mod 100 =? 0) || (y mod 400 =? 0)))%Z.

Definition days_in_month (y m : Z) : Z :=
  if (m =? 2)%Z then (if leap_year y then 29 else 28)%Z
  else if ((m =? 4) || (m =? 6) || (m =? 9) || (m =? 11))%Z then 30%Z
  else 31%Z.

(** Month and day of a day number, as [Calendar] computes them. *)
Definition month_day_of_day_number (n : Z) : Z * Z :=
  let doy := Calendar.day_of_year (Calendar.day_of_era n) in
  (Calendar.month_of_doy doy, Calendar.day_of_doy doy).

(** The CSV text of a climatology of a reach: the reach id, then for each
    key, in key order, the mean of the flows whose time has that key. *)
Definition averages_csv (W : World) (key : Z -> string) (reach_id : Z)
    (series : list (Z * cell W)) : string :=
  let sorted := merge_sort by_time series in
  csv_writerow W (match series with [] => [] | _ :: _ => [str_int reach_id] end)
  +:+ fold_right String.append ""
        (map (fun k =>
                csv_writerow W
                  (match series with
                   | [] => []
                   | _ :: _ =>
                       [float_text W
                          (mean W (map snd (List.filter
                                              (fun r => String.eqb (key (fst r)) k)
                                              sorted)))]
                   end))
             (group_keys key (map fst sorted))).


(** ** The router *)

Lemma event_path_inv event p :
  event_path event = Some p ->
  exists d rc http s,
    event = PDict d /\ d !! "requestContext" = Some (PDict rc)
    /\ rc !! "http" = Some (PDict http) /\ http !! "path" = Some (PStr s)
    /\ p = drop 1 (split "/" s).
Proof.
  unfold event_path. intros H.
  destruct event as [| | | | | |d]; try discriminate.
  destruct (d !! "requestContext") as [[| | | | | |rc]|] eqn:Hrc; try discriminate.
  destruct (rc !! "http") as [[| | | | | |http]|] eqn:Hhttp; try discriminate.
  destruct (http !! "path") as [[| | | |s| |]|] eqn:Hpath; try discriminate.
  injection H as <-. by exists d, rc, http, s.
Qed.

(** What [check_if_valid_request] answers when the event has a path. *)
Lemma check_if_valid_request_path event p :
  event_path event = Some p ->
  check_if_valid_request event =
    match p with
    | first :: _ =>
        if negb (String.eqb first "v2") then
          Rejected (PDict {[ "statesCode" := PInt 422;
                             "body" := PStr ("No V2 in " +:+ repr_list p) ]})
        else Path p
    | [] => Path p
    end.
Proof.
  intros (d & rc & http & s & -> & Hrc & Hhttp & Hpath & ->)%event_path_inv.
  unfold check_if_valid_request. cbn. rewrite Hrc. cbn. rewrite Hhttp. cbn.
  rewrite Hpath. cbn. reflexivity.
Qed.

(** Without a path the bare [except] answers. *)
Lemma check_if_valid_request_no_path event :
  event_path event = None ->
  check_if_valid_request event =
    Rejected (PDict {[ "statesCode" := PInt 400; "body" := PStr "Bad request" ]}).
Proof.
  unfold event_path, check_if_valid_request. intros H.
  destruct event as [| | | | | |d]; try reflexivity. cbn.
  destruct (d !! "requestContext") as [rcv|] eqn:Hrc; [|reflexivity]. cbn.
  destruct rcv as [| | | | | |rc]; try reflexivity. cbn.
  destruct (rc !! "http") as [hv|] eqn:Hhttp; [|reflexivity]. cbn.
  destruct hv as [| | | | | |http]; try reflexivity. cbn.
  destruct (http !! "path") as [pv|] eqn:Hpath; [|reflexivity]. cbn.
  destruct pv; try reflexivity. discriminate.
Qed.

(** A rejected request never reaches a handler: whatever dictionary
    [check_if_valid_request] built, the response is the same. *)
Lemma lambda_handler_rejected W event context envelope :
  check_if_valid_request event = Rejected envelope ->
  lambda_handler W event context =
    PDict {[ "statesCode" := PInt 400; "body" := PStr "Bad request: 1" ]}.
Proof. intros H. unfold lambda_handler, dispatch. rewrite H. reflexivity. Qed.

Lemma lambda_handler_short W event context p :
  event_path event = Some p -> p = [] \/ p = ["v2"] ->
  lambda_handler W event context =
    PDict {[ "statesCode" := PInt 400;
             "body" := PStr "Bad request: list index out of range" ]}.
Proof.
  intros Hp Hshort. unfold lambda_handler, dispatch.
  rewrite (check_if_valid_request_path _ _ Hp).
  destruct Hshort as [-> | ->]; reflexivity.
Qed.

Lemma dispatch_v2 W event endpoint rest :
  event_path event = Some ("v2" :: endpoint :: rest) ->
  dispatch W event =
    let path := "v2" :: endpoint :: rest in
    if String.eqb endpoint "retrospective" then
      Some <$> retrospective W path event
    else if String.eqb endpoint "daily_averages" then
      Some <$> daily_averages W path event
    else if String.eqb endpoint "monthly_averages" then
      Some <$> monthly_averages W path event
    else if String.eqb endpoint "returnperiods" then
      Some <$> returnperiods W path event
    else Ok None.
Proof.
  intros Hp. unfold dispatch.
  rewrite (check_if_valid_request_path _ _ Hp). reflexivity.
Qed.

(** ** The four handlers have one shape *)

Lemma to_csv_relabel W {I J} (f : I -> J) (df : DataFrame I (cell W)) :
  to_csv W (relabel f df) = to_csv W df.
Proof.
  unfold to_csv, relabel. cbn. do 2 f_equal.
  rewrite map_map. reflexivity.
Qed.

Lemma output_of_relabel W {I} (f : I -> index_label) params
    (df : DataFrame I (cell W)) :
  output_of W params (relabel f df) =
    (fmt ← dict_get params "format";
     if truthy fmt then
       f1 ← getitem params "format";
       if eq_str f1 "csv" then Ok (to_csv W df)
       else
         f2 ← getitem params "format";
         if eq_str f2 "json" then to_json W (relabel f df)
         else Raise (Exn ValueError "")
     else Ok (to_csv W df)).
Proof. unfold output_of. rewrite to_csv_relabel. reflexivity. Qed.

Lemma retrospective_shape W path event :
  retrospective W path event = handler_shape W "retrospective" path event.
Proof.
  unfold retrospective, handler_shape, parse_request, endpoint_table.
  destruct (negb (2 <? length path)%nat); [reflexivity|]. cbn.
  destruct (dict_get event "queryStringParameters" ≫= _) as [[params rid]|e];
    [|reflexivity].
  destruct (_retrospective W rid params) as [df|e]; [|reflexivity]. cbn.
  rewrite output_of_relabel. by destruct (dict_get params "format").
Qed.

Lemma daily_averages_shape W path event :
  daily_averages W path event = handler_shape W "daily_averages" path event.
Proof.
  unfold daily_averages, handler_shape, parse_request, endpoint_table.
  destruct (negb (2 <? length path)%nat); [reflexivity|]. cbn.
  destruct (getitem event "requestContext" ≫= _) as [[params rid]|e];
    [|reflexivity].
  destruct (_retrospective W rid (PDict ∅)) as [df|e]; [|reflexivity]. cbn.
  rewrite output_of_relabel. by destruct (dict_get params "format").
Qed.

Lemma monthly_averages_shape W path event :
  monthly_averages W path event = handler_shape W "monthly_averages" path event.
Proof.
  unfold monthly_averages, handler_shape, parse_request, endpoint_table.
  destruct (negb (2 <? length path)%nat); [reflexivity|]. cbn.
  destruct (getitem event "requestContext" ≫= _) as [[params rid]|e];
    [|reflexivity].
  destruct (_retrospective W rid (PDict ∅)) as [df|e]; [|reflexivity]. cbn.
  rewrite output_of_relabel. by destruct (dict_get params "format").
Qed.

Lemma returnperiods_shape W path event :
  returnperiods W path event = handler_shape W "returnperiods" path event.
Proof.
  unfold returnperiods, handler_shape, parse_request, endpoint_table.
  destruct (negb (2 <? length path)%nat); [reflexivity|]. cbn.
  destruct (getitem event "requestContext" ≫= _) as [[params rid]|e];
    [|reflexivity].
  destruct (select_returnperiods W rid) as [df|e]; [|reflexivity]. cbn.
  unfold output_of. by destruct (dict_get params "format").
Qed.

Lemma handler_of_shape W endpoint path event :
  recognized endpoint = true ->
  handler_of W endpoint path event = handler_shape W endpoint path event.
Proof.
  unfold recognized, handler_of. intros H.
  destruct (String.eqb endpoint "retrospective") eqn:E1.
  { apply String.eqb_eq in E1 as ->. apply retrospective_shape. }
  destruct (String.eqb endpoint "daily_averages") eqn:E2.
  { apply String.eqb_eq in E2 as ->. apply daily_averages_shape. }
  destruct (String.eqb endpoint "monthly_averages") eqn:E3.
  { apply String.eqb_eq in E3 as ->. apply monthly_averages_shape. }
  destruct (String.eqb endpoint "returnperiods") eqn:E4; [|discriminate].
  apply String.eqb_eq in E4 as ->. apply returnperiods_shape.
Qed.

(** A recognized endpoint under [v2] is answered by its handler, and a
    handler that raises by the generic envelope. *)
Lemma lambda_handler_recognized W event context endpoint rest :
  event_path event = Some ("v2" :: endpoint :: rest) ->
  recognized endpoint = true ->
  lambda_handler W event context =
    match handler_shape W endpoint ("v2" :: endpoint :: rest) event with
    | Ok response => response
    | Raise e =>
        PDict {[ "statesCode" := PInt 400;
                 "body" := PStr ("Bad request: " +:+ exn_str e) ]}
    end.
Proof.
  intros Hp Hrec. unfold lambda_handler.
  rewrite (dispatch_v2 _ _ _ _ Hp). cbn zeta.
  rewrite <- (handler_of_shape W endpoint) by done.
  unfold recognized, handler_of in *.
  destruct (String.eqb endpoint "retrospective").
  { by destruct (retrospective W _ event). }
  destruct (String.eqb endpoint "daily_averages").
  { by destruct (daily_averages W _ event). }
  destruct (String.eqb endpoint "monthly_averages").
  { by destruct (monthly_averages W _ event). }
  destruct (String.eqb endpoint "returnperiods"); [|discriminate].
  by destruct (returnperiods W _ event).
Qed.

(** ** Requests the router turns away *)

(** C1 (the code departs from it).  An event whose path is [v2] followed
    by a segment that is none of the four endpoint names leaves the
    [try] of [lambda_handler] without a [return]: the answer is the final
    dictionary, [statusCode] 200 with the event itself serialized as the
    body, not an error envelope. *)
Theorem unknown_endpoint_echoes_event W event context endpoint rest :
  event_path event = Some ("v2" :: endpoint :: rest) ->
  recognized endpoint = false ->
  lambda_handler W event context =
    PDict {[ "statusCode" := PInt 200; "body" := PStr (json_dumps W event) ]}.
Proof.
  intros Hp Hrec. unfold lambda_handler.
  rewrite (dispatch_v2 _ _ _ _ Hp). cbn zeta.
  unfold recognized in Hrec.
  destruct (String.eqb endpoint "retrospective"); [discriminate|].
  destruct (String.eqb endpoint "daily_averages"); [discriminate|].
  destruct (String.eqb endpoint "monthly_averages"); [discriminate|].
  destruct (String.eqb endpoint "returnperiods"); [discriminate|].
  reflexivity.
Qed.

Lemma unknown_endpoint_echoes_event_witness :
  let event := Sample.http_event "/v2/forecast/12345678" None None in
  lambda_handler Sample.lenient event PNone =
    PDict {[ "statusCode" := PInt 200;
             "body" := PStr (json_dumps Sample.lenient event) ]}.
Proof.
  intros event.
  apply (unknown_endpoint_echoes_event Sample.lenient event PNone
           "forecast" ["12345678"]); reflexivity.
Defined.

(** C4 (the code departs from it).  When the first segment of the path is
    not [v2], [check_if_valid_request] builds a 422 dictionary whose body
    quotes the path, but [lambda_handler] indexes that dictionary with [1]
    as if it were the path; the [KeyError] is caught and the client gets
    the same 400 body for every rejected path, with no trace of the
    offending value. *)
Theorem invalid_version_message_lost W event context first rest :
  event_path event = Some (first :: rest) ->
  first <> "v2" ->
  check_if_valid_request event =
    Rejected (PDict {[ "statesCode" := PInt 422;
                       "body" := PStr ("No V2 in " +:+ repr_list (first :: rest)) ]})
  /\ lambda_handler W event context =
       PDict {[ "statesCode" := PInt 400; "body" := PStr "Bad request: 1" ]}.
Proof.
  intros Hp Hne.
  assert (Hcheck : check_if_valid_request event =
    Rejected (PDict {[ "statesCode" := PInt 422;
                       "body" := PStr ("No V2 in " +:+ repr_list (first :: rest)) ]})).
  { rewrite (check_if_valid_request_path _ _ Hp).
    destruct (String.eqb first "v2") eqn:E; [|reflexivity].
    apply String.eqb_eq in E. contradiction. }
  split; [exact Hcheck|].
  exact (lambda_handler_rejected W event context _ Hcheck).
Qed.

Lemma invalid_version_message_lost_witness :
  let event := Sample.http_event "/v1/retrospective/12345678" None None in
  check_if_valid_request event =
    Rejected (PDict {[ "statesCode" := PInt 422;
                       "body" := PStr "No V2 in ['v1', 'retrospective', '12345678']" ]})
  /\ lambda_handler Sample.lenient event PNone =
       PDict {[ "statesCode" := PInt 400; "body" := PStr "Bad request: 1" ]}.
Proof.
  intros event.
  apply (invalid_version_message_lost Sample.lenient event PNone
           "v1" ["retrospective"; "12345678"]); [reflexivity | discriminate].
Defined.

(** C6 (the code departs from it).  Only the handlers test for the missing
    reach id, and [lambda_handler] does nothing where it measures the path
    (lines 226-227).  A path that stops before the endpoint name (the
    empty path, or [v2] alone) makes [path[1]] fail and is answered by the
    generic 400 with the text of the [IndexError], which says nothing of
    the reach id; [v2] followed by a segment that is no endpoint name is
    answered with [statusCode] 200 and the event itself; only [v2]
    followed by one of the four endpoint names gets the 422 envelope of
    the missing reach id. *)
Theorem short_path_skips_reach_check W event context p :
  event_path event = Some p ->
  (p = [] \/ p = ["v2"] ->
   lambda_handler W event context =
     PDict {[ "statesCode" := PInt 400;
              "body" := PStr "Bad request: list index out of range" ]})
  /\ (forall endpoint, p = ["v2"; endpoint] -> recognized endpoint = false ->
      lambda_handler W event context =
        PDict {[ "statusCode" := PInt 200; "body" := PStr (json_dumps W event) ]}
      /\ successful (lambda_handler W event context))
  /\ (forall endpoint, p = ["v2"; endpoint] -> recognized endpoint = true ->
      lambda_handler W event context =
        PDict {[ "statesCode" := PInt 422;
                 "body" := PStr "Bad request: No reachID specified" ]}).
Proof.
  intros Hp. split; [|split].
  - intros Hshort. exact (lambda_handler_short W event context p Hp Hshort).
  - intros endpoint -> Hrec.
    assert (Hecho : lambda_handler W event context =
              PDict {[ "statusCode" := PInt 200;
                       "body" := PStr (json_dumps W event) ]}).
    { unfold lambda_handler. rewrite (dispatch_v2 _ _ _ _ Hp). cbn zeta.
      unfold recognized in Hrec.
      destruct (String.eqb endpoint "retrospective"); [discriminate|].
      destruct (String.eqb endpoint "daily_averages"); [discriminate|].
      destruct (String.eqb endpoint "monthly_averages"); [discriminate|].
      destruct (String.eqb endpoint "returnperiods"); [discriminate|].
      reflexivity. }
    split; [exact Hecho|]. rewrite Hecho. eexists. split; [reflexivity|].
    by rewrite lookup_insert_eq.
  - intros endpoint -> Hrec.
    rewrite (lambda_handler_recognized W event context endpoint [] Hp Hrec).
    reflexivity.
Qed.

Lemma short_path_skips_reach_check_witness :
  (lambda_handler Sample.lenient (Sample.http_event "/v2" None None) PNone =
     PDict {[ "statesCode" := PInt 400;
              "body" := PStr "Bad request: list index out of range" ]})
  /\ (let event := Sample.http_event "/v2/forecast" None None in
      lambda_handler Sample.lenient event PNone =
        PDict {[ "statusCode" := PInt 200;
                 "body" := PStr (json_dumps Sample.lenient event) ]}
      /\ successful (lambda_handler Sample.lenient event PNone)).
Proof.
  split.
  - apply (proj1 (short_path_skips_reach_check Sample.lenient
                    (Sample.http_event "/v2" None None) PNone ["v2"] eq_refl)).
    right. reflexivity.
  - intros event.
    apply (proj1 (proj2 (short_path_skips_reach_check Sample.lenient
                           event PNone ["v2"; "forecast"] eq_refl)) "forecast");
      reflexivity.
Defined.

(** Not every short path is answered with 422: on the path [/v2] the code
    carried by the response is 400 and its body speaks of a list index. *)
Lemma short_path_not_always_422 :
  ~ (forall (W : World) (event context : pyval) (p : list string),
       event_path event = Some p -> (length p < 3)%nat ->
       code_of (lambda_handler W event context) = Some 422%Z).
Proof.
  intros H.
  specialize (H Sample.lenient (Sample.http_event "/v2" None None) PNone ["v2"]
                eq_refl ltac:(cbn; lia)).
  vm_compute in H. discriminate H.
Qed.
(** Every path of fewer than three segments, case by case: the two
    answers above, and the two that come from elsewhere in the router. *)
Lemma short_path_responses W event context p :
  event_path event = Some p -> (length p < 3)%nat ->
  lambda_handler W event context =
    match p with
    | [] =>
        PDict {[ "statesCode" := PInt 400;
                 "body" := PStr "Bad request: list index out of range" ]}
    | first :: rest =>
        if negb (String.eqb first "v2") then
          PDict {[ "statesCode" := PInt 400; "body" := PStr "Bad request: 1" ]}
        else
          match rest with
          | [] =>
              PDict {[ "statesCode" := PInt 400;
                       "body" := PStr "Bad request: list index out of range" ]}
          | endpoint :: _ =>
              if recognized endpoint then
                PDict {[ "statesCode" := PInt 422;
                         "body" := PStr "Bad request: No reachID specified" ]}
              else
                PDict {[ "statusCode" := PInt 200;
                         "body" := PStr (json_dumps W event) ]}
          end
    end.
Proof.
  intros Hp Hlen. unfold lambda_handler, dispatch.
  rewrite (check_if_valid_request_path _ _ Hp).
  destruct p as [|first rest]; [reflexivity|].
  destruct (String.eqb first "v2"); cbn [negb]; [|reflexivity].
  destruct rest as [|endpoint rest]; [reflexivity|].
  destruct rest; [|cbn in Hlen; lia].
  cbn [list_getitem lookup list_lookup mbind result_bind]. unfold recognized.
  destruct (String.eqb endpoint "retrospective"); [reflexivity|].
  destruct (String.eqb endpoint "daily_averages"); [reflexivity|].
  destruct (String.eqb endpoint "monthly_averages"); [reflexivity|].
  destruct (String.eqb endpoint "returnperiods"); reflexivity.
Qed.

(** ** Running a handler *)

Lemma endpoint_site_dict endpoint event p :
  event_path event = Some p ->
  exists c, endpoint_site endpoint event = Ok (PDict c).
Proof.
  intros (d & rc & http & s & -> & Hrc & _)%event_path_inv.
  unfold endpoint_site. destruct (String.eqb endpoint "retrospective").
  - by exists d.
  - exists rc. cbn. by rewrite Hrc.
Qed.

Lemma parse_request_run W endpoint path event p q segment :
  event_path event = Some p ->
  query_parameters endpoint event = Ok q ->
  path !! 2%nat = Some segment ->
  parse_request W endpoint path event =
    (reach_id ← int W segment; Ok (if truthy q then q else PDict ∅, reach_id)).
Proof.
  intros Hp Hq Hseg.
  destruct (endpoint_site_dict endpoint event p Hp) as [c Hsite].
  unfold query_parameters in Hq. unfold parse_request.
  rewrite Hsite in *. cbn in *. injection Hq as <-.
  unfold list_getitem. rewrite Hseg.
  destruct (c !! "queryStringParameters") as [v|]; cbn; [|reflexivity].
  destruct (truthy v); reflexivity.
Qed.

(** The answer to a request for a recognized endpoint that names a reach:
    everything from line 56 of the source to the [except] of
    [lambda_handler]. *)
Lemma lambda_handler_run W event context endpoint segment rest q :
  event_path event = Some ("v2" :: endpoint :: segment :: rest) ->
  recognized endpoint = true ->
  query_parameters endpoint event = Ok q ->
  lambda_handler W event context =
    match int_of_str W segment with
    | None =>
        PDict {[ "statesCode" := PInt 400;
                 "body" := PStr ("Bad request: couldn't make " +:+ segment
                                 +:+ " into an integer") ]}
    | Some reach_id =>
        let params := if truthy q then q else PDict ∅ in
        match (df ← endpoint_table W endpoint reach_id params;
               output_of W params df) with
        | Ok output =>
            PDict {[ "statusCode" := PInt 200;
                     "body" := PStr (json_dumps_str output) ]}
        | Raise e =>
            PDict {[ "statesCode" := PInt 400;
                     "body" := PStr ("Bad request: " +:+ exn_str e) ]}
        end
    end.
Proof.
  intros Hp Hrec Hq.
  rewrite (lambda_handler_recognized W event context endpoint _ Hp Hrec).
  unfold handler_shape.
  rewrite (parse_request_run W endpoint ("v2" :: endpoint :: segment :: rest)
             event _ q segment Hp Hq eq_refl).
  cbn. unfold int. destruct (int_of_str W segment) as [rid|]; cbn; [|reflexivity].
  destruct (endpoint_table W endpoint rid _) as [df|e]; cbn; [|reflexivity].
  destruct (output_of W _ df); reflexivity.
Qed.

Lemma output_of_default W params df fmt :
  dict_get params "format" = Ok fmt -> truthy fmt = false ->
  output_of W params df = Ok (to_csv W df).
Proof. intros H Hf. unfold output_of. rewrite H. cbn. by rewrite Hf. Qed.

Lemma output_of_format W (d : gmap string pyval) df v :
  d !! "format" = Some v -> truthy v = true ->
  output_of W (PDict d) df =
    if eq_str v "csv" then Ok (to_csv W df)
    else if eq_str v "json" then to_json W df
    else Raise (Exn ValueError "").
Proof.
  intros H Hv. unfold output_of. cbn. rewrite H. cbn. rewrite Hv. cbn.
  reflexivity.
Qed.

Lemma lookup_Some_truthy (d : gmap string pyval) k v :
  d !! k = Some v -> truthy (PDict d) = true.
Proof.
  intros H. cbn. apply negb_true_iff, Nat.eqb_neq. intros Hsize.
  apply map_size_empty_iff in Hsize. subst d. by rewrite lookup_empty in H.
Qed.

(** ** The [format] parameter *)

Lemma error_envelope_not_successful code body :
  ~ successful (PDict {[ "statesCode" := PInt code; "body" := PStr body ]}).
Proof.
  intros (d & [= <-] & [x Hx]).
  rewrite lookup_insert_ne in Hx by discriminate.
  rewrite lookup_singleton_ne in Hx by discriminate.
  discriminate Hx.
Qed.

(** C5, as the code has it.  On a recognized endpoint, a [format] value
    found in the parameters the handler reads (the top-level
    [queryStringParameters] for [retrospective], those of
    [requestContext] for the other three) that passes the truth test of
    the source and is neither [csv] nor [json] never yields a success: the
    handler answers 422 when the reach
    is missing, 400 when it is not an integer, and otherwise something
    raises (the store, a date, or the bare [ValueError] of the format
    test) and [lambda_handler] answers 400. *)
Theorem unsupported_format_is_an_error W event context endpoint rest d v :
  event_path event = Some ("v2" :: endpoint :: rest) ->
  recognized endpoint = true ->
  query_parameters endpoint event = Ok (PDict d) ->
  d !! "format" = Some v ->
  truthy v = true -> eq_str v "csv" = false -> eq_str v "json" = false ->
  (exists code body,
      lambda_handler W event context =
        PDict {[ "statesCode" := PInt code; "body" := PStr body ]}
      /\ (code = 400 \/ code = 422)%Z)
  /\ ~ successful (lambda_handler W event context).
Proof.
  intros Hp Hrec Hq Hfmt Hv Hcsv Hjson.
  assert (Hex : exists code body,
      lambda_handler W event context =
        PDict {[ "statesCode" := PInt code; "body" := PStr body ]}
      /\ (code = 400 \/ code = 422)%Z).
  { destruct rest as [|segment rest].
    - rewrite (lambda_handler_recognized W event context endpoint [] Hp Hrec).
      cbn. eauto.
    - rewrite (lambda_handler_run W event context endpoint segment rest _ Hp Hrec Hq).
      destruct (int_of_str W segment) as [rid|]; [|eauto]. cbn zeta.
      rewrite (lookup_Some_truthy d "format" v Hfmt).
      destruct (endpoint_table W endpoint rid (PDict d)) as [df|e];
        unfold mbind, result_bind; [|eauto].
      rewrite (output_of_format W d df v Hfmt Hv), Hcsv, Hjson. eauto. }
  split; [exact Hex|].
  destruct Hex as (code & body & -> & _). apply error_envelope_not_successful.
Qed.

Lemma unsupported_format_is_an_error_witness :
  let event := Sample.http_event "/v2/retrospective/12345678"
                 (Some (Sample.query [("format", "xml")])) None in
  (exists code body,
      lambda_handler Sample.lenient event PNone =
        PDict {[ "statesCode" := PInt code; "body" := PStr body ]}
      /\ (code = 400 \/ code = 422)%Z)
  /\ ~ successful (lambda_handler Sample.lenient event PNone).
Proof.
  intros event.
  apply (unsupported_format_is_an_error Sample.lenient event PNone
           "retrospective" ["12345678"]
           (list_to_map [("format", PStr "xml")]) (PStr "xml"));
    reflexivity.
Defined.

(** What the sample world answers to [?format=] with nothing after the
    equals sign. *)
Example empty_format_response :
  lambda_handler Sample.lenient
    (Sample.http_event "/v2/retrospective/12345678"
       (Some (Sample.query [("format", "")])) None) PNone =
  PDict {[ "statusCode" := PInt 200;
           "body" := PStr (json_dumps_str
                             (join (str1 LF) ["12345678"; "1400"; "1500"; "1600";
                                              "1700"; ""])) ]}.
Proof. vm_compute. reflexivity. Qed.

(** A [format] given where the handler does not look is not a [format]
    for it: [daily_averages] reads the parameters of [requestContext],
    and with [format=xml] at the top level of the event the sample world
    sends the daily means as CSV. *)
Example format_at_unread_site_response :
  lambda_handler Sample.lenient
    (Sample.http_event "/v2/daily_averages/12345678"
       (Some (Sample.query [("format", "xml")])) None) PNone =
  PDict {[ "statusCode" := PInt 200;
           "body" := PStr (json_dumps_str
                             (join (str1 LF) ["12345678"; "1500"; "1600"; "1700";
                                              "1400"; ""])) ]}.
Proof. vm_compute. reflexivity. Qed.

(** C5 as stated does not hold: an empty [format] value is supplied and
    is neither [csv] nor [json], yet it fails the truth test of
    [params.get('format', False)] and the table is sent as CSV with a
    200. *)
Lemma empty_format_falls_back_to_csv :
  ~ (forall (W : World) (event context : pyval) (endpoint : string)
            (rest : list string) (d : gmap string pyval) (v : pyval),
        event_path event = Some ("v2" :: endpoint :: rest) ->
        recognized endpoint = true ->
        query_parameters endpoint event = Ok (PDict d) ->
        d !! "format" = Some v ->
        v <> PStr "csv" -> v <> PStr "json" ->
        ~ successful (lambda_handler W event context)).
Proof.
  intros H.
  apply (H Sample.lenient
           (Sample.http_event "/v2/retrospective/12345678"
              (Some (Sample.query [("format", "")])) None)
           PNone "retrospective" ["12345678"]
           (list_to_map [("format", PStr "")]) (PStr ""));
    try reflexivity; try discriminate.
  rewrite empty_format_response.
  eexists. split; [reflexivity|]. by eexists.
Qed.

(** ** The body is a JSON string *)

Lemma append_cons c (a b : string) : String c a +:+ b = String c (a +:+ b).
Proof. reflexivity. Qed.

Lemma append_assoc (a b c : string) : (a +:+ b) +:+ c = a +:+ (b +:+ c).
Proof.
  induction a as [|x a IH]; [reflexivity|]. rewrite !append_cons. by f_equal.
Qed.

Lemma json_unescape_escape c rest :
  json_unescape (json_escape_char c +:+ rest) = String c (json_unescape rest).
Proof.
  destruct c as [b0 b1 b2 b3 b4 b5 b6 b7].
  destruct b0, b1, b2, b3, b4, b5, b6, b7; reflexivity.
Qed.

Lemma json_unescape_concat_map s rest :
  json_unescape (concat_map json_escape_char s +:+ rest) = s +:+ json_unescape rest.
Proof.
  induction s as [|c s IH]; [reflexivity|]. cbn [concat_map].
  by rewrite append_assoc, json_unescape_escape, IH.
Qed.

Lemma append_empty_r (s : string) : s +:+ "" = s.
Proof.
  induction s as [|c s IH]; [reflexivity|]. rewrite append_cons. by f_equal.
Qed.

(** Decoding the body gives back the text that was encoded. *)
Lemma json_loads_dumps_str s : json_loads_str (json_dumps_str s) = Some s.
Proof.
  unfold json_loads_str, json_dumps_str. cbn [Ascii.eqb].
  change (Ascii.eqb dquote dquote) with true. cbn iota.
  rewrite json_unescape_concat_map. cbn. by rewrite append_empty_r.
Qed.

Lemma json_dumps_str_inj s1 s2 : json_dumps_str s1 = json_dumps_str s2 -> s1 = s2.
Proof.
  intros H. apply (f_equal json_loads_str) in H.
  rewrite !json_loads_dumps_str in H. by injection H.
Qed.

Lemma length_append (a b : string) :
  String.length (a +:+ b) = (String.length a + String.length b)%nat.
Proof.
  induction a as [|x a IH]; [reflexivity|]. rewrite append_cons. cbn.
  by rewrite IH.
Qed.

Lemma json_escape_char_length c : (1 <= String.length (json_escape_char c))%nat.
Proof.
  destruct c as [b0 b1 b2 b3 b4 b5 b6 b7].
  destruct b0, b1, b2, b3, b4, b5, b6, b7; vm_compute; lia.
Qed.

Lemma concat_map_escape_length s :
  (String.length s <= String.length (concat_map json_escape_char s))%nat.
Proof.
  induction s as [|c s IH]; [cbn; lia|]. cbn [concat_map String.length].
  rewrite length_append. pose proof (json_escape_char_length c). lia.
Qed.

(** The encoding is never the text itself: it is at least two characters
    longer. *)
Lemma json_dumps_str_longer s :
  (String.length s + 2 <= String.length (json_dumps_str s))%nat.
Proof.
  unfold json_dumps_str. cbn. rewrite length_append. cbn.
  pose proof (concat_map_escape_length s). lia.
Qed.

Lemma json_dumps_str_not_raw s : json_dumps_str s <> s.
Proof.
  intros H. pose proof (json_dumps_str_longer s) as Hlen.
  rewrite H in Hlen. lia.
Qed.

(** ** The retrospective table and its CSV text *)

Lemma pivot_distinct {cell} (reach_id : Z) (series : list (Z * cell)) :
  NoDup (map fst series) ->
  pivot reach_id series =
    Ok (Frame (match series with [] => [] | _ :: _ => [CInt reach_id] end)
              (map (fun r => (fst r, [snd r])) (merge_sort by_time series))).
Proof. intros H. unfold pivot. by rewrite bool_decide_eq_true_2. Qed.

(** Without a truthy [end_date] or [start_date] the table is the pivoted
    series of the reach, unfiltered. *)
Lemma _retrospective_unfiltered W reach_id (d : gmap string pyval) :
  d !! "end_date" = None -> d !! "start_date" = None ->
  _retrospective W reach_id (PDict d) =
    (series ← select_retrospective W reach_id; pivot reach_id series).
Proof.
  intros He Hs. unfold _retrospective.
  destruct (select_retrospective W reach_id) as [series|e]; [|reflexivity]. cbn.
  destruct (pivot reach_id series) as [df|e]; [|reflexivity]. cbn.
  rewrite He, Hs. reflexivity.
Qed.

Lemma to_csv_frame W {I} cols (rs : list (I * list (cell W))) :
  to_csv W (Frame cols rs) =
    csv_writerow W (map label_text cols)
    +:+ fold_right String.append ""
          (map (fun r => csv_writerow W (map (float_text W) (snd r))) rs).
Proof. reflexivity. Qed.

(** C3, as the code has it.  A request for the retrospective series of a
    reach the store knows, without query parameters, is answered with 200
    and the JSON encoding of a CSV text whose header record holds a single
    field, the reach id that labels the one column of the pivoted table,
    followed by one record per stored timestamp, in time order, holding
    only the flow value: [index=False] keeps the time index out of both
    the header and the records.  When the store has no timestamp for the
    reach the pivoted table has no column: the header record then has no
    field and no record follows it. *)
Theorem retrospective_csv_omits_time W event context segment rest q
    reach_id series :
  event_path event = Some ("v2" :: "retrospective" :: segment :: rest) ->
  query_parameters "retrospective" event = Ok q ->
  truthy q = false ->
  int_of_str W segment = Some reach_id ->
  select_retrospective W reach_id = Ok series ->
  NoDup (map fst series) ->
  lambda_handler W event context =
    PDict {[ "statusCode" := PInt 200;
             "body" := PStr (json_dumps_str (retrospective_csv W reach_id series)) ]}
  /\ merge_sort by_time series ≡ₚ series
  /\ (series <> [] ->
      retrospective_csv W reach_id series
      = csv_writerow W [str_int reach_id]
        +:+ fold_right String.append ""
              (map (fun r => csv_writerow W [float_text W (snd r)])
                   (merge_sort by_time series)))
  /\ (series = [] -> retrospective_csv W reach_id series = csv_writerow W [] +:+ "").
Proof.
  intros Hp Hq Hfalse Hint Hsel Hnodup.
  split; [|split; [apply merge_sort_Permutation|split]];
    [|by destruct series|by intros ->].
  rewrite (lambda_handler_run W event context "retrospective" segment rest q
             Hp eq_refl Hq).
  rewrite Hint, Hfalse. cbn zeta.
  unfold endpoint_table. cbn [String.eqb Ascii.eqb Bool.eqb].
  rewrite (_retrospective_unfiltered W reach_id ∅) by apply lookup_empty.
  rewrite Hsel. cbn [mbind result_bind]. rewrite (pivot_distinct _ _ Hnodup).
  cbn [fmap result_fmap mbind result_bind].
  rewrite (output_of_default W (PDict ∅) _ (PBool false)) by reflexivity.
  rewrite to_csv_relabel, to_csv_frame. unfold retrospective_csv.
  rewrite map_map.
  replace (map label_text match series with [] => [] | _ :: _ => [CInt reach_id] end)
    with (match series with [] => [] | _ :: _ => [str_int reach_id] end)
    by (by destruct series).
  reflexivity.
Qed.

Lemma sample_series_distinct : NoDup (map fst Sample.series).
Proof.
  apply (bool_decide_eq_true_1 (NoDup (map fst Sample.series))).
  vm_compute. reflexivity.
Defined.

Lemma retrospective_csv_omits_time_witness :
  lambda_handler Sample.lenient
    (Sample.http_event "/v2/retrospective/12345678" None None) PNone =
    PDict {[ "statusCode" := PInt 200;
             "body" := PStr (json_dumps_str
                               (retrospective_csv Sample.lenient 12345678
                                  Sample.series)) ]}
  /\ merge_sort by_time Sample.series ≡ₚ Sample.series.
Proof.
  pose proof (retrospective_csv_omits_time Sample.lenient
                (Sample.http_event "/v2/retrospective/12345678" None None) PNone
                "12345678" [] (PBool false) 12345678 Sample.series
                eq_refl eq_refl eq_refl eq_refl eq_refl sample_series_distinct)
    as (Hresponse & Hsorted & _).
  split; [exact Hresponse | exact Hsorted].
Defined.

(** What the sample world answers to a request for the series of its one
    reach: the reach id, then the four flows, nothing of the times. *)
Example sample_retrospective_response :
  lambda_handler Sample.lenient
    (Sample.http_event "/v2/retrospective/12345678" None None) PNone =
  PDict {[ "statusCode" := PInt 200;
           "body" := PStr (json_dumps_str
                             (join (str1 LF) ["12345678"; "1400"; "1500"; "1600";
                                              "1700"; ""])) ]}.
Proof. vm_compute. reflexivity. Qed.

Lemma contains_char_append c (a b : string) :
  contains_char c (a +:+ b) = contains_char c a || contains_char c b.
Proof.
  induction a as [|x a IH]; [reflexivity|].
  rewrite append_cons. cbn. rewrite IH. apply orb_assoc.
Qed.

Lemma body_of_envelope key code body :
  key <> "body" ->
  body_of (PDict {[ key := PInt code; "body" := PStr body ]}) = Some body.
Proof.
  intros H. unfold body_of.
  rewrite lookup_insert_ne by done. by rewrite lookup_singleton_eq.
Qed.

(** C3 as stated does not hold: in the sample world the header record of
    the CSV text is [12345678] alone, and no text that starts with a
    record of two fields, one naming the time index and one the flow,
    equals it. *)
Lemma retrospective_csv_header_lacks_time :
  ~ (forall (W : World) (event context : pyval) (segment : string)
            (rest : list string) (q : pyval) (reach_id : Z)
            (series : list (Z * cell W)),
        event_path event = Some ("v2" :: "retrospective" :: segment :: rest) ->
        query_parameters "retrospective" event = Ok q ->
        truthy q = false ->
        int_of_str W segment = Some reach_id ->
        select_retrospective W reach_id = Ok series ->
        NoDup (map fst series) ->
        exists time_name flow_name records,
          lambda_handler W event context =
            PDict {[ "statusCode" := PInt 200;
                     "body" := PStr (json_dumps_str
                                       (csv_writerow W [time_name; flow_name]
                                        +:+ records)) ]}).
Proof.
  intros H.
  destruct (H Sample.lenient
              (Sample.http_event "/v2/retrospective/12345678" None None) PNone
              "12345678" [] (PBool false) 12345678%Z Sample.series
              eq_refl eq_refl eq_refl eq_refl eq_refl sample_series_distinct)
    as (time_name & flow_name & records & Hresp).
  rewrite sample_retrospective_response in Hresp.
  apply (f_equal body_of) in Hresp.
  rewrite !body_of_envelope in Hresp by discriminate.
  apply (inj Some), json_dumps_str_inj in Hresp. rename Hresp into Hbody.
  apply (f_equal (contains_char ",")) in Hbody.
  change (csv_writerow Sample.lenient [time_name; flow_name])
    with ((time_name +:+ "," +:+ flow_name) +:+ str1 LF) in Hbody.
  rewrite !contains_char_append in Hbody. cbn in Hbody.
  rewrite !orb_true_r in Hbody. discriminate Hbody.
Qed.

(** ** The date filter *)

Lemma filter_twice {A} (f g : A -> bool) (l : list A) :
  List.filter f (List.filter g l) = List.filter (fun x => f x && g x) l.
Proof.
  induction l as [|x l IH]; [reflexivity|]. cbn.
  destruct (g x); cbn; destruct (f x); cbn; by rewrite ?IH.
Qed.

Lemma filter_same {A} (f g : A -> bool) (l : list A) :
  (forall x, f x = g x) -> List.filter f l = List.filter g l.
Proof.
  intros H. induction l as [|x l IH]; [reflexivity|]. cbn.
  by rewrite H, IH.
Qed.

Lemma filter_all {A} (l : list A) : List.filter (fun _ => true) l = l.
Proof. induction l as [|x l IH]; [reflexivity|]. cbn. by rewrite IH. Qed.

Lemma select_rows_all {I cell} (df : DataFrame I cell) :
  select_rows (fun _ => true) df = df.
Proof. destruct df as [cs rs]. unfold select_rows. cbn. by rewrite filter_all. Qed.

(** The two [if] blocks of [_retrospective], one bound at a time. *)
Lemma date_bound_step W (d : gmap string pyval) key bound
    (keep : option Z -> Z -> bool) (df : DataFrame Z (cell W)) :
  date_bound W d key bound ->
  (forall t, keep None t = true) ->
  (dict_get (PDict d) key ≫= fun given =>
     if truthy given then
       v ← getitem (PDict d) key;
       ts ← to_datetime W v;
       Ok (select_rows (fun t => match ts with
                                 | Some b => keep (Some b) t
                                 | None => false
                                 end) df)
     else Ok df) =
  Ok (select_rows (keep bound) df).
Proof.
  intros [[Hnone ->] | (v & t & Hsome & Hv & Hparse & ->)] Hkeep; cbn.
  - rewrite Hnone. cbn.
    rewrite <- (select_rows_all df) at 1. unfold select_rows. do 2 f_equal.
    apply filter_same. intros x. by rewrite Hkeep.
  - rewrite Hsome. cbn. rewrite Hv. cbn. rewrite Hparse. reflexivity.
Qed.



(** The rows the sample world keeps for the first two days of 2020, and
    for the second day alone. *)
Example sample_two_days :
  rows <$> _retrospective Sample.lenient 12345678
             (Sample.query [("start_date", "2020-01-01"); ("end_date", "2020-01-02")])
  = Ok [ (Sample.midnight 2020 1 1, [1500%Z]); (Sample.midnight 2020 1 2, [1600%Z]) ].
Proof. vm_compute. reflexivity. Qed.

Example sample_single_day :
  rows <$> _retrospective Sample.lenient 12345678
             (Sample.query [("start_date", "2020-01-02"); ("end_date", "2020-01-02")])
  = Ok [ (Sample.midnight 2020 1 2, [1600%Z]) ].
Proof. vm_compute. reflexivity. Qed.

(** ** Group keys *)

Lemma day_of_era_range day : (0 <= Calendar.day_of_era day < 146097)%Z.
Proof. unfold Calendar.day_of_era. apply Z.mod_pos_bound. lia. Qed.

Lemma day_of_year_range doe :
  (0 <= doe < 146097)%Z -> (0 <= Calendar.day_of_year doe <= 365)%Z.
Proof.
  intros H. unfold Calendar.day_of_year, Calendar.year_of_era.
  Z.to_euclidean_division_equations. lia.
Qed.

(** Every timestamp falls on one of the 366 days of a year that starts on
    1 March and ends on 29 February. *)
Lemma doy_of_range t : (0 <= Calendar.doy_of t < 366)%Z.
Proof.
  unfold Calendar.doy_of.
  pose proof (day_of_year_range _ (day_of_era_range (Calendar.day_number t))).
  lia.
Qed.

Lemma month_of_doy_range doy :
  (0 <= doy < 366)%Z -> (1 <= Calendar.month_of_doy doy < 13)%Z.
Proof.
  intros H. unfold Calendar.month_of_doy, Calendar.month_from_march.
  destruct (Z.ltb_spec ((5 * doy + 2) / 153) 10);
    Z.to_euclidean_division_equations; lia.
Qed.

Lemma strftime_md_in t :
  Calendar.strftime_md t ∈ Calendar.md_of_doy <$> seqZ 0 366.
Proof.
  unfold Calendar.strftime_md. apply list_elem_of_fmap_2.
  apply elem_of_seqZ. pose proof (doy_of_range t). lia.
Qed.

Lemma strftime_m_in t :
  Calendar.strftime_m t ∈ Calendar.m_of_month <$> seqZ 1 12.
Proof.
  unfold Calendar.strftime_m, Calendar.month. apply list_elem_of_fmap_2.
  apply elem_of_seqZ.
  pose proof (month_of_doy_range _ (doy_of_range t)). lia.
Qed.

Lemma group_keys_NoDup key idx : NoDup (group_keys key idx).
Proof.
  unfold group_keys. rewrite merge_sort_Permutation. apply NoDup_remove_dups.
Qed.

Lemma group_keys_elem key idx k :
  k ∈ group_keys key idx -> exists t, t ∈ idx /\ k = key t.
Proof.
  unfold group_keys. rewrite merge_sort_Permutation, elem_of_remove_dups.
  intros (t & -> & Ht)%list_elem_of_fmap. by exists t.
Qed.

(** As many keys at most as the key function has values. *)
Lemma group_keys_bounded key idx (values : list string) :
  (forall t, key t ∈ values) ->
  (length (group_keys key idx) <= length values)%nat.
Proof.
  intros Hkey. apply submseteq_length, NoDup_submseteq.
  - apply group_keys_NoDup.
  - intros k (t & _ & ->)%group_keys_elem. apply Hkey.
Qed.

Lemma groupby_mean_index {cell} (mean : list cell -> cell) key (df : DataFrame Z cell) :
  index (groupby_mean mean key df) = group_keys key (index df).
Proof.
  unfold groupby_mean, index at 1. cbn. rewrite map_map. cbn. apply map_id.
Qed.

Lemma daily_keys_bounded idx :
  (length (group_keys Calendar.strftime_md idx) <= 366)%nat.
Proof.
  pose proof (group_keys_bounded Calendar.strftime_md idx
                (Calendar.md_of_doy <$> seqZ 0 366) strftime_md_in) as H.
  by rewrite length_fmap, length_seqZ in H.
Qed.

Lemma monthly_keys_bounded idx :
  (length (group_keys Calendar.strftime_m idx) <= 12)%nat.
Proof.
  pose proof (group_keys_bounded Calendar.strftime_m idx
                (Calendar.m_of_month <$> seqZ 1 12) strftime_m_in) as H.
  by rewrite length_fmap, length_seqZ in H.
Qed.


Lemma relabel_rows_length {I J cell} (f : I -> J) (df : DataFrame I cell) :
  length (rows (relabel f df)) = length (index df).
Proof. unfold relabel, index. cbn. by rewrite !length_map. Qed.

(** The same bounds on the tables the two climatology endpoints format. *)
Lemma averages_table_rows W reach_id params table :
  (endpoint_table W "daily_averages" reach_id params = Ok table ->
   (length (rows table) <= 366)%nat)
  /\ (endpoint_table W "monthly_averages" reach_id params = Ok table ->
      (length (rows table) <= 12)%nat).
Proof.
  unfold endpoint_table. cbn [String.eqb Ascii.eqb Bool.eqb].
  destruct (_retrospective W reach_id (PDict ∅)) as [df|e]; cbn;
    split; intros [= <-]; rewrite relabel_rows_length, groupby_mean_index.
  - apply daily_keys_bounded.
  - apply monthly_keys_bounded.
Qed.

(** Both bounds are met: a table with a row on each day of the leap year
    2020 has 366 daily keys and 12 monthly keys. *)
Example leap_year_keys :
  let idx := map (fun n => (Sample.midnight 2020 1 1 + n * Calendar.ns_per_day)%Z)
                 (seqZ 0 366) in
  length (group_keys Calendar.strftime_md idx) = 366%nat
  /\ length (group_keys Calendar.strftime_m idx) = 12%nat.
Proof. vm_compute. split; reflexivity. Qed.

(** ** Successful responses *)

Lemma output_of_formatted W params df text :
  output_of W params df = Ok text -> formatted_as W df text.
Proof.
  unfold output_of, formatted_as.
  destruct (dict_get params "format") as [fmt|e]; [|discriminate]. cbn.
  destruct (truthy fmt); [|intros [= <-]; by left].
  destruct (getitem params "format") as [f|e]; [|discriminate]. cbn.
  destruct (eq_str f "csv"); [intros [= <-]; by left|].
  destruct (eq_str f "json"); [intros H; by right | discriminate].
Qed.

Lemma parse_request_reach W endpoint path event params reach_id :
  parse_request W endpoint path event = Ok (params, reach_id) ->
  exists segment, path !! 2%nat = Some segment
                  /\ int_of_str W segment = Some reach_id.
Proof.
  unfold parse_request, list_getitem, int.
  destruct (endpoint_site endpoint event) as [site|e]; [|discriminate]. cbn.
  destruct (dict_get site "queryStringParameters") as [qsp|e]; [|discriminate]. cbn.
  destruct (if truthy qsp then _ else _) as [ps|e]; [|discriminate]. cbn.
  destruct (path !! 2%nat) as [segment|]; [|discriminate]. cbn.
  destruct (int_of_str W segment) as [rid|] eqn:Hint; [|discriminate]. cbn.
  intros [= _ <-]. by exists segment.
Qed.

Lemma handler_shape_success W endpoint path event response :
  handler_shape W endpoint path event = Ok response ->
  successful response ->
  exists segment reach_id params table text,
    path !! 2%nat = Some segment
    /\ int_of_str W segment = Some reach_id
    /\ endpoint_table W endpoint reach_id params = Ok table
    /\ formatted_as W table text
    /\ response = PDict {[ "statusCode" := PInt 200;
                           "body" := PStr (json_dumps W (PStr text)) ]}.
Proof.
  unfold handler_shape. intros H Hsucc.
  destruct (negb (2 <? length path)%nat).
  { injection H as <-. by apply error_envelope_not_successful in Hsucc. }
  destruct (parse_request W endpoint path event) as [[params rid]|e] eqn:Hparse.
  - destruct (endpoint_table W endpoint rid params) as [df|e] eqn:Htable;
      [|discriminate].
    cbn in H. destruct (output_of W params df) as [text|e] eqn:Hout; [|discriminate].
    injection H as <-.
    destruct (parse_request_reach _ _ _ _ _ _ Hparse) as (segment & Hseg & Hint).
    exists segment, rid, params, df, text.
    split; [exact Hseg|]. split; [exact Hint|]. split; [exact Htable|].
    split; [by apply output_of_formatted in Hout | reflexivity].
  - destruct (is_ValueError e); [|discriminate].
    destruct (list_getitem path 2) as [segment|e']; [|discriminate].
    injection H as <-. by apply error_envelope_not_successful in Hsucc.
Qed.

(** C8.  A response of any of the four handlers that carries [statusCode]
    is the dictionary of [statusCode] 200 and a body, and the body is
    [json.dumps] of the text of the endpoint's table for the reach the
    path names, CSV or JSON: a JSON string literal that decodes to the
    text and is never the text itself. *)
Theorem success_body_is_encoded_table W endpoint path event response :
  recognized endpoint = true ->
  handler_of W endpoint path event = Ok response ->
  successful response ->
  exists segment reach_id params table text,
    path !! 2%nat = Some segment
    /\ int_of_str W segment = Some reach_id
    /\ endpoint_table W endpoint reach_id params = Ok table
    /\ formatted_as W table text
    /\ response = PDict {[ "statusCode" := PInt 200;
                           "body" := PStr (json_dumps W (PStr text)) ]}
    /\ json_loads_str (json_dumps W (PStr text)) = Some text
    /\ json_dumps W (PStr text) <> text.
Proof.
  intros Hrec H Hsucc. rewrite (handler_of_shape W endpoint path event Hrec) in H.
  destruct (handler_shape_success W endpoint path event response H Hsucc)
    as (segment & rid & params & table & text & Hseg & Hint & Htable & Hfmt & ->).
  exists segment, rid, params, table, text.
  repeat (split; [assumption || reflexivity|]).
  split; [apply json_loads_dumps_str | apply json_dumps_str_not_raw].
Qed.

(** The sample world's answer to a plain retrospective request, as the
    handler returns it. *)
Example sample_retrospective_success :
  retrospective Sample.lenient ["v2"; "retrospective"; "12345678"]
    (Sample.http_event "/v2/retrospective/12345678" None None) =
  Ok (PDict {[ "statusCode" := PInt 200;
               "body" := PStr (json_dumps_str
                                 (join (str1 LF) ["12345678"; "1400"; "1500";
                                                  "1600"; "1700"; ""])) ]}).
Proof. vm_compute. reflexivity. Qed.

Lemma success_body_is_encoded_table_witness :
  let path := ["v2"; "retrospective"; "12345678"] in
  let response :=
    PDict {[ "statusCode" := PInt 200;
             "body" := PStr (json_dumps_str
                               (join (str1 LF) ["12345678"; "1400"; "1500";
                                                "1600"; "1700"; ""])) ]} in
  exists segment reach_id params table text,
    path !! 2%nat = Some segment
    /\ int_of_str Sample.lenient segment = Some reach_id
    /\ endpoint_table Sample.lenient "retrospective" reach_id params = Ok table
    /\ formatted_as Sample.lenient table text
    /\ response = PDict {[ "statusCode" := PInt 200;
                           "body" := PStr (json_dumps Sample.lenient (PStr text)) ]}
    /\ json_loads_str (json_dumps Sample.lenient (PStr text)) = Some text
    /\ json_dumps Sample.lenient (PStr text) <> text.
Proof.
  intros path response.
  apply (success_body_is_encoded_table Sample.lenient "retrospective" path
           (Sample.http_event "/v2/retrospective/12345678" None None) response).
  - reflexivity.
  - exact sample_retrospective_success.
  - eexists. split; [reflexivity|]. by eexists.
Defined.

(** ** Where a handler reads its parameters *)

Lemma parse_request_nested W path e1 e2 :
  differ_at_nested e1 e2 ->
  parse_request W "retrospective" path e1 = parse_request W "retrospective" path e2.
Proof.
  intros (d1 & d2 & c1 & c2 & -> & -> & Hsame & _).
  unfold parse_request, endpoint_site. cbn.
  by rewrite (Hsame "queryStringParameters") by discriminate.
Qed.

Lemma parse_request_top W endpoint path e1 e2 :
  differ_at_top e1 e2 ->
  String.eqb endpoint "retrospective" = false ->
  parse_request W endpoint path e1 = parse_request W endpoint path e2.
Proof.
  intros (d1 & d2 & -> & -> & Hsame) Hep.
  unfold parse_request, endpoint_site. rewrite Hep. cbn.
  by rewrite (Hsame "requestContext") by discriminate.
Qed.

Lemma handler_shape_parse W endpoint path e1 e2 :
  parse_request W endpoint path e1 = parse_request W endpoint path e2 ->
  handler_shape W endpoint path e1 = handler_shape W endpoint path e2.
Proof. intros H. unfold handler_shape. by rewrite H. Qed.

(** C10.  [retrospective] answers alike on two events that differ only in
    [requestContext.queryStringParameters], and the three other handlers
    answer alike on two events that differ only in the top-level
    [queryStringParameters]. *)
Theorem unread_parameters_do_not_matter W path e1 e2 :
  (differ_at_nested e1 e2 ->
   retrospective W path e1 = retrospective W path e2)
  /\ (differ_at_top e1 e2 ->
      daily_averages W path e1 = daily_averages W path e2
      /\ monthly_averages W path e1 = monthly_averages W path e2
      /\ returnperiods W path e1 = returnperiods W path e2).
Proof.
  split.
  - intros H. rewrite !retrospective_shape.
    by apply handler_shape_parse, parse_request_nested.
  - intros H.
    rewrite !daily_averages_shape, !monthly_averages_shape, !returnperiods_shape.
    repeat split; by apply handler_shape_parse, parse_request_top.
Qed.

Lemma event_path_nested e1 e2 :
  differ_at_nested e1 e2 -> event_path e1 = event_path e2.
Proof.
  intros (d1 & d2 & c1 & c2 & -> & -> & _ & H1 & H2 & Hsame).
  unfold event_path. rewrite H1, H2.
  by rewrite (Hsame "http") by discriminate.
Qed.

Lemma event_path_top e1 e2 :
  differ_at_top e1 e2 -> event_path e1 = event_path e2.
Proof.
  intros (d1 & d2 & -> & -> & Hsame).
  unfold event_path. by rewrite (Hsame "requestContext") by discriminate.
Qed.

(** Through [lambda_handler], a request that reaches a recognized handler
    is answered alike on two events that differ only at the parameter
    location that handler does not read. *)
Lemma lambda_handler_ignores_unread_parameters W e1 e2 context endpoint rest :
  event_path e1 = Some ("v2" :: endpoint :: rest) ->
  recognized endpoint = true ->
  (if String.eqb endpoint "retrospective" then differ_at_nested e1 e2
   else differ_at_top e1 e2) ->
  lambda_handler W e1 context = lambda_handler W e2 context.
Proof.
  intros Hp Hrec Hdiff.
  assert (Hp2 : event_path e2 = Some ("v2" :: endpoint :: rest)).
  { rewrite <- Hp. symmetry.
    destruct (String.eqb endpoint "retrospective");
      [by apply event_path_nested | by apply event_path_top]. }
  rewrite (lambda_handler_recognized W e1 context endpoint rest Hp Hrec).
  rewrite (lambda_handler_recognized W e2 context endpoint rest Hp2 Hrec).
  assert (Hparse : parse_request W endpoint ("v2" :: endpoint :: rest) e1
                   = parse_request W endpoint ("v2" :: endpoint :: rest) e2).
  { destruct (String.eqb endpoint "retrospective") eqn:E.
    - apply String.eqb_eq in E as ->. by apply parse_request_nested.
    - by apply parse_request_top. }
  by rewrite (handler_shape_parse W endpoint _ e1 e2 Hparse).
Qed.

Lemma sample_events_differ_at_nested :
  differ_at_nested
    (Sample.http_event "/v2/retrospective/12345678" None None)
    (Sample.http_event "/v2/retrospective/12345678" None
       (Some (Sample.query [("format", "xml")]))).
Proof.
  eexists _, _, _, _. repeat split; try reflexivity.
  - intros k Hk. rewrite !lookup_singleton_ne by done. reflexivity.
  - intros k Hk. by rewrite lookup_insert_ne.
Defined.

Lemma sample_events_differ_at_top :
  differ_at_top
    (Sample.http_event "/v2/daily_averages/12345678" None None)
    (Sample.http_event "/v2/daily_averages/12345678"
       (Some (Sample.query [("format", "xml")])) None).
Proof.
  eexists _, _. repeat split; try reflexivity.
  intros k Hk. by rewrite lookup_insert_ne.
Defined.

Lemma unread_parameters_do_not_matter_witness :
  retrospective Sample.lenient ["v2"; "retrospective"; "12345678"]
    (Sample.http_event "/v2/retrospective/12345678" None None)
  = retrospective Sample.lenient ["v2"; "retrospective"; "12345678"]
      (Sample.http_event "/v2/retrospective/12345678" None
         (Some (Sample.query [("format", "xml")])))
  /\ daily_averages Sample.lenient ["v2"; "daily_averages"; "12345678"]
       (Sample.http_event "/v2/daily_averages/12345678" None None)
     = daily_averages Sample.lenient ["v2"; "daily_averages"; "12345678"]
         (Sample.http_event "/v2/daily_averages/12345678"
            (Some (Sample.query [("format", "xml")])) None).
Proof.
  split.
  - exact (proj1 (unread_parameters_do_not_matter Sample.lenient _ _ _)
             sample_events_differ_at_nested).
  - exact (proj1 (proj2 (unread_parameters_do_not_matter Sample.lenient _ _ _)
                    sample_events_differ_at_top)).
Defined.

(** ** [format=json] *)

(** What a [format=json] request for a known reach is answered with is
    decided by [DataFrame.to_json(index=False)] alone. *)
Lemma json_request_outcome W event context endpoint segment rest d reach_id table :
  event_path event = Some ("v2" :: endpoint :: segment :: rest) ->
  recognized endpoint = true ->
  query_parameters endpoint event = Ok (PDict d) ->
  d !! "format" = Some (PStr "json") ->
  int_of_str W segment = Some reach_id ->
  endpoint_table W endpoint reach_id (PDict d) = Ok table ->
  lambda_handler W event context =
    match to_json W table with
    | Ok text =>
        PDict {[ "statusCode" := PInt 200;
                 "body" := PStr (json_dumps W (PStr text)) ]}
    | Raise e =>
        PDict {[ "statesCode" := PInt 400;
                 "body" := PStr ("Bad request: " +:+ exn_str e) ]}
    end.
Proof.
  intros Hp Hrec Hq Hfmt Hint Htable.
  rewrite (lambda_handler_run W event context endpoint segment rest _ Hp Hrec Hq).
  rewrite Hint. cbn zeta. rewrite (lookup_Some_truthy d "format" _ Hfmt).
  rewrite Htable. unfold mbind, result_bind.
  rewrite (output_of_format W d table _ Hfmt eq_refl). cbn.
  destruct (to_json W table); reflexivity.
Qed.

(** C2 (the code departs from it).  The handlers call
    [df.to_json(index=False)] and leave [orient] at its default.  When the
    library refuses that call, a [format=json] request for a reach the
    store knows is not answered with 200 and a JSON table but with the
    generic 400 envelope carrying the library's message. *)
Theorem json_request_fails_when_refused W event context endpoint segment rest d
    reach_id table e :
  event_path event = Some ("v2" :: endpoint :: segment :: rest) ->
  recognized endpoint = true ->
  query_parameters endpoint event = Ok (PDict d) ->
  d !! "format" = Some (PStr "json") ->
  int_of_str W segment = Some reach_id ->
  endpoint_table W endpoint reach_id (PDict d) = Ok table ->
  to_json W table = Raise e ->
  lambda_handler W event context =
    PDict {[ "statesCode" := PInt 400;
             "body" := PStr ("Bad request: " +:+ exn_str e) ]}.
Proof.
  intros Hp Hrec Hq Hfmt Hint Htable Hjson.
  rewrite (json_request_outcome W event context endpoint segment rest d
             reach_id table Hp Hrec Hq Hfmt Hint Htable).
  by rewrite Hjson.
Qed.

Lemma json_request_fails_when_refused_witness :
  lambda_handler Sample.strict
    (Sample.http_event "/v2/retrospective/12345678"
       (Some (Sample.query [("format", "json"); ("start_date", "2020-01-01");
                            ("end_date", "2020-01-02")])) None) PNone =
    PDict {[ "statesCode" := PInt 400;
             "body" := PStr ("Bad request: "
                             +:+ "'index=False' is only valid when 'orient' is 'split' or 'table'") ]}.
Proof.
  apply (json_request_fails_when_refused Sample.strict _ PNone
           "retrospective" "12345678" []
           (list_to_map [("format", PStr "json"); ("start_date", PStr "2020-01-01");
                         ("end_date", PStr "2020-01-02")])
           12345678
           (Frame [CInt 12345678]
                  [ (ITime (Sample.midnight 2020 1 1), [1500%Z]);
                    (ITime (Sample.midnight 2020 1 2), [1600%Z]) ])
           (Exn ValueError
                "'index=False' is only valid when 'orient' is 'split' or 'table'"));
    reflexivity.
Defined.

(** With a serializer that accepts the call instead, the same request is
    answered with 200, and the row labels are in the text: each flow is
    keyed by its timestamp. *)
Example json_request_when_accepted :
  body_of
    (lambda_handler Sample.lenient
       (Sample.http_event "/v2/retrospective/12345678"
          (Some (Sample.query [("format", "json"); ("start_date", "2020-01-01");
                               ("end_date", "2020-01-02")])) None) PNone)
    ≫= json_loads_str
  = Some ("{" +:+ json_dumps_str "12345678" +:+ ":{"
          +:+ json_dumps_str "1577836800000" +:+ ":1500,"
          +:+ json_dumps_str "1577923200000" +:+ ":1600}}").
Proof. vm_compute. reflexivity. Qed.

(** * Further properties of the script *)

(** ** Requests that never reach the store *)

Lemma query_parameters_total endpoint event p :
  event_path event = Some p ->
  exists q, query_parameters endpoint event = Ok q.
Proof.
  intros Hp. destruct (endpoint_site_dict endpoint event p Hp) as [c Hsite].
  unfold query_parameters. rewrite Hsite. cbn. eauto.
Qed.

(** An event without a text at [requestContext.http.path] makes
    [check_if_valid_request] build its own 400 dictionary, which
    [lambda_handler] then indexes like a path: the client reads the text
    of the [KeyError], not [Bad request] alone. *)
Theorem malformed_event_rejected W event context :
  event_path event = None ->
  check_if_valid_request event =
    Rejected (PDict {[ "statesCode" := PInt 400; "body" := PStr "Bad request" ]})
  /\ lambda_handler W event context =
       PDict {[ "statesCode" := PInt 400; "body" := PStr "Bad request: 1" ]}.
Proof.
  intros Hp. pose proof (check_if_valid_request_no_path event Hp) as Hcheck.
  split; [exact Hcheck|].
  exact (lambda_handler_rejected W event context _ Hcheck).
Qed.

Lemma malformed_event_rejected_witness :
  let event := PDict {[ "rawPath" := PStr "/v2/retrospective/12345678" ]} in
  check_if_valid_request event =
    Rejected (PDict {[ "statesCode" := PInt 400; "body" := PStr "Bad request" ]})
  /\ lambda_handler Sample.lenient event PNone =
       PDict {[ "statesCode" := PInt 400; "body" := PStr "Bad request: 1" ]}.
Proof.
  intros event.
  apply (malformed_event_rejected Sample.lenient event PNone). reflexivity.
Defined.

Lemma split_no_separator sep s :
  Forall (fun piece => contains_char sep piece = false) (split sep s).
Proof.
  induction s as [|c s IH]; cbn.
  - by repeat constructor.
  - destruct (Ascii.eqb c sep) eqn:E.
    + by constructor.
    + destruct (split sep s) as [|w ws].
      * constructor; [|constructor]. cbn. by rewrite Ascii.eqb_sym, E.
      * inversion IH as [|? ? Hw Hws]; subst. constructor; [|exact Hws].
        cbn. rewrite Ascii.eqb_sym, E. exact Hw.
Qed.

Lemma check_if_valid_request_Path_inv event p :
  check_if_valid_request event = Path p -> event_path event = Some p.
Proof.
  intros Hcheck. destruct (event_path event) as [p'|] eqn:Hp.
  - rewrite (check_if_valid_request_path _ _ Hp) in Hcheck.
    destruct p' as [|first rest]; [by injection Hcheck as <-|].
    destruct (String.eqb first "v2"); [by injection Hcheck as <- | discriminate].
  - rewrite (check_if_valid_request_no_path _ Hp) in Hcheck. discriminate.
Qed.

(** [check_if_valid_request] lets a path through exactly when the event
    has one and it is empty or starts with [v2]: the empty path and the
    path of a single slash-free word pass the check of line 89. *)
Theorem check_if_valid_request_accepts event p :
  check_if_valid_request event = Path p <->
  event_path event = Some p /\ (p = [] \/ exists rest, p = "v2" :: rest).
Proof.
  split.
  - intros Hcheck. destruct (event_path event) as [p'|] eqn:Hp.
    + rewrite (check_if_valid_request_path _ _ Hp) in Hcheck.
      destruct p' as [|first rest].
      * injection Hcheck as <-. by split; [|left].
      * destruct (String.eqb_spec first "v2") as [-> | Hne]; [|discriminate].
        injection Hcheck as <-. split; [reflexivity|]. right. by exists rest.
    + rewrite (check_if_valid_request_no_path _ Hp) in Hcheck. discriminate.
  - intros [Hp Hshape]. rewrite (check_if_valid_request_path _ _ Hp).
    destruct Hshape as [-> | [rest ->]]; reflexivity.
Qed.

(** What [check_if_valid_request] lets through is the list of the pieces
    between the slashes: no segment a handler sees holds a slash. *)
Theorem accepted_segments_have_no_slash event p :
  check_if_valid_request event = Path p ->
  Forall (fun segment => contains_char "/" segment = false) p.
Proof.
  intros Hp%check_if_valid_request_Path_inv.
  apply event_path_inv in Hp as (d & rc & http & s & _ & _ & _ & _ & ->).
  apply Forall_drop, split_no_separator.
Qed.

Lemma accepted_segments_have_no_slash_witness :
  Forall (fun segment => contains_char "/" segment = false)
         ["v2"; "retrospective"; "12345678"].
Proof.
  apply (accepted_segments_have_no_slash
           (Sample.http_event "/v2/retrospective/12345678" None None)).
  reflexivity.
Defined.

Lemma split_append sep (x rest : string) :
  contains_char sep x = false ->
  split sep (x +:+ String sep rest) = x :: split sep rest.
Proof.
  induction x as [|c x IH]; intros Hx.
  - change (split sep (String sep rest) = "" :: split sep rest).
    cbn. by rewrite Ascii.eqb_refl.
  - cbn in Hx. apply orb_false_iff in Hx as [Hc Hx].
    rewrite append_cons. cbn. rewrite Ascii.eqb_sym, Hc. by rewrite (IH Hx).
Qed.

Lemma split_plain sep (x : string) :
  contains_char sep x = false -> split sep x = [x].
Proof.
  induction x as [|c x IH]; intros Hx; [reflexivity|].
  cbn in Hx. apply orb_false_iff in Hx as [Hc Hx].
  cbn. rewrite Ascii.eqb_sym, Hc. by rewrite (IH Hx).
Qed.

Lemma split_join (segments : list string) :
  segments <> [] ->
  Forall (fun segment => contains_char "/" segment = false) segments ->
  split "/" (join "/" segments) = segments.
Proof.
  induction segments as [|x [|y rest] IH]; intros Hne Hall; [done| |].
  - inversion Hall; subst. by apply split_plain.
  - inversion Hall as [|? ? Hx Hrest]; subst.
    change (join "/" (x :: y :: rest)) with (x +:+ String "/" (join "/" (y :: rest))).
    rewrite (split_append "/" x _ Hx). f_equal. by apply IH.
Qed.

(** Cutting undoes joining: an event whose path is a slash followed by
    [v2] and further slash-free segments joined by slashes is accepted
    with exactly those segments, empty ones included. *)
Theorem path_segments_round_trip (d rc http : gmap string pyval) rest :
  d !! "requestContext" = Some (PDict rc) ->
  rc !! "http" = Some (PDict http) ->
  http !! "path" = Some (PStr ("/" +:+ join "/" ("v2" :: rest))) ->
  Forall (fun segment => contains_char "/" segment = false) rest ->
  check_if_valid_request (PDict d) = Path ("v2" :: rest).
Proof.
  intros Hrc Hhttp Hpath Hrest.
  rewrite (check_if_valid_request_path _ ("v2" :: rest)); [reflexivity|].
  unfold event_path. rewrite Hrc, Hhttp, Hpath.
  change ("/" +:+ join "/" ("v2" :: rest)) with (String "/" (join "/" ("v2" :: rest))).
  cbn [split]. change (Ascii.eqb "/" "/") with true. cbn iota.
  rewrite split_join; [reflexivity | discriminate |].
  constructor; [reflexivity | exact Hrest].
Qed.

Lemma path_segments_round_trip_witness :
  check_if_valid_request
    (PDict {[ "requestContext" :=
                PDict {[ "http" :=
                           PDict {[ "path" :=
                                      PStr ("/" +:+ join "/" ["v2"; "returnperiods";
                                                              "12345678"; ""]) ]} ]} ]})
  = Path ["v2"; "returnperiods"; "12345678"; ""].
Proof.
  apply (path_segments_round_trip
           {[ "requestContext" :=
                PDict {[ "http" :=
                           PDict {[ "path" :=
                                      PStr ("/" +:+ join "/" ["v2"; "returnperiods";
                                                              "12345678"; ""]) ]} ]} ]}
           {[ "http" :=
                PDict {[ "path" :=
                           PStr ("/" +:+ join "/" ["v2"; "returnperiods";
                                                   "12345678"; ""]) ]} ]}
           {[ "path" := PStr ("/" +:+ join "/" ["v2"; "returnperiods";
                                                "12345678"; ""]) ]}
           ["returnperiods"; "12345678"; ""]);
    try reflexivity.
  repeat constructor.
Defined.

(** A third segment that [int] refuses is answered by the handler's own
    400, which quotes the segment as it came; neither the store nor the
    query parameters have a say. *)
Theorem bad_reach_id_is_quoted W event context endpoint segment rest :
  event_path event = Some ("v2" :: endpoint :: segment :: rest) ->
  recognized endpoint = true ->
  int_of_str W segment = None ->
  lambda_handler W event context =
    PDict {[ "statesCode" := PInt 400;
             "body" := PStr ("Bad request: couldn't make " +:+ segment
                             +:+ " into an integer") ]}.
Proof.
  intros Hp Hrec Hint.
  destruct (query_parameters_total endpoint event _ Hp) as [q Hq].
  rewrite (lambda_handler_run W event context endpoint segment rest q Hp Hrec Hq).
  by rewrite Hint.
Qed.

Lemma bad_reach_id_is_quoted_witness :
  lambda_handler Sample.lenient
    (Sample.http_event "/v2/daily_averages/12a" None
       (Some (Sample.query [("format", "json")]))) PNone =
    PDict {[ "statesCode" := PInt 400;
             "body" := PStr ("Bad request: couldn't make " +:+ "12a"
                             +:+ " into an integer") ]}.
Proof.
  apply (bad_reach_id_is_quoted Sample.lenient _ PNone "daily_averages" "12a" []);
    reflexivity.
Defined.

(** ** Failures of the store and of the dates *)

Lemma recognized_cases endpoint :
  recognized endpoint = true ->
  endpoint = "retrospective" \/ endpoint = "daily_averages"
  \/ endpoint = "monthly_averages" \/ endpoint = "returnperiods".
Proof.
  unfold recognized. intros H.
  destruct (String.eqb_spec endpoint "retrospective"); [by left|].
  destruct (String.eqb_spec endpoint "daily_averages"); [by right; left|].
  destruct (String.eqb_spec endpoint "monthly_averages"); [by right; right; left|].
  destruct (String.eqb_spec endpoint "returnperiods"); [by right; right; right|].
  discriminate.
Qed.

Lemma _retrospective_store_fails W reach_id params e :
  select_retrospective W reach_id = Raise e ->
  _retrospective W reach_id params = Raise e.
Proof. intros H. unfold _retrospective. by rewrite H. Qed.

(** An exception of the store (an unknown reach, an unreachable bucket)
    comes before anything the parameters could cause and reaches the
    client as the generic 400 with the text of the exception; the three
    endpoints built on [_retrospective] share one store, [returnperiods]
    has its own. *)
Theorem store_failure_is_reported W event context endpoint segment rest
    reach_id e :
  event_path event = Some ("v2" :: endpoint :: segment :: rest) ->
  recognized endpoint = true ->
  int_of_str W segment = Some reach_id ->
  (if String.eqb endpoint "returnperiods"
   then select_returnperiods W reach_id
        = (Raise e : result (DataFrame index_label (cell W)))
   else select_retrospective W reach_id = Raise e) ->
  lambda_handler W event context =
    PDict {[ "statesCode" := PInt 400;
             "body" := PStr ("Bad request: " +:+ exn_str e) ]}.
Proof.
  intros Hp Hrec Hint Hstore.
  destruct (query_parameters_total endpoint event _ Hp) as [q Hq].
  rewrite (lambda_handler_run W event context endpoint segment rest q Hp Hrec Hq).
  rewrite Hint. cbn zeta.
  assert (Htable : endpoint_table W endpoint reach_id
                     (if truthy q then q else PDict ∅) = Raise e).
  { destruct (recognized_cases endpoint Hrec) as [-> | [-> | [-> | ->]]];
      cbn in Hstore; unfold endpoint_table; cbn [String.eqb Ascii.eqb Bool.eqb];
      try exact Hstore;
      by rewrite (_retrospective_store_fails W reach_id _ e Hstore). }
  by rewrite Htable.
Qed.

Lemma store_failure_is_reported_witness :
  lambda_handler Sample.lenient
    (Sample.http_event "/v2/monthly_averages/99" None None) PNone =
    PDict {[ "statesCode" := PInt 400;
             "body" := PStr ("Bad request: " +:+ "99") ]}.
Proof.
  apply (store_failure_is_reported Sample.lenient _ PNone "monthly_averages"
           "99" [] 99 (Exn KeyError "99")); reflexivity.
Defined.

Lemma effective_dict (d : gmap string pyval) :
  (if truthy (PDict d) then PDict d else PDict ∅) = PDict d.
Proof.
  destruct (truthy (PDict d)) eqn:E; [reflexivity|].
  cbn in E. apply negb_false_iff, Nat.eqb_eq, map_size_empty_iff in E.
  by subst d.
Qed.

Lemma output_of_lookup W (d : gmap string pyval) df :
  output_of W (PDict d) df = format_text W (d !! "format") df.
Proof.
  unfold output_of, format_text. cbn.
  destruct (d !! "format") as [v|]; cbn; [|reflexivity].
  destruct (truthy v); reflexivity.
Qed.

(** The answer to a request whose query parameters are a dictionary. *)
Lemma lambda_handler_dict W event context endpoint segment rest
    (d : gmap string pyval) :
  event_path event = Some ("v2" :: endpoint :: segment :: rest) ->
  recognized endpoint = true ->
  query_parameters endpoint event = Ok (PDict d) ->
  lambda_handler W event context =
    match int_of_str W segment with
    | None =>
        PDict {[ "statesCode" := PInt 400;
                 "body" := PStr ("Bad request: couldn't make " +:+ segment
                                 +:+ " into an integer") ]}
    | Some reach_id =>
        match (df ← endpoint_table W endpoint reach_id (PDict d);
               format_text W (d !! "format") df) with
        | Ok output =>
            PDict {[ "statusCode" := PInt 200;
                     "body" := PStr (json_dumps_str output) ]}
        | Raise e =>
            PDict {[ "statesCode" := PInt 400;
                     "body" := PStr ("Bad request: " +:+ exn_str e) ]}
        end
    end.
Proof.
  intros Hp Hrec Hq.
  rewrite (lambda_handler_run W event context endpoint segment rest _ Hp Hrec Hq).
  destruct (int_of_str W segment) as [rid|]; [|reflexivity].
  cbn zeta. rewrite effective_dict.
  destruct (endpoint_table W endpoint rid (PDict d)) as [df|e]; [|reflexivity].
  unfold mbind, result_bind. by rewrite output_of_lookup.
Qed.

(** [_retrospective] reads its parameters through two keys only. *)
Lemma _retrospective_lookup W reach_id (d1 d2 : gmap string pyval) :
  d1 !! "end_date" = d2 !! "end_date" ->
  d1 !! "start_date" = d2 !! "start_date" ->
  _retrospective W reach_id (PDict d1) = _retrospective W reach_id (PDict d2).
Proof.
  intros He Hs. unfold _retrospective. cbn. by rewrite He, Hs.
Qed.

Lemma endpoint_table_lookup W endpoint reach_id (d1 d2 : gmap string pyval) :
  (endpoint = "retrospective" ->
   d1 !! "end_date" = d2 !! "end_date"
   /\ d1 !! "start_date" = d2 !! "start_date") ->
  endpoint_table W endpoint reach_id (PDict d1)
  = endpoint_table W endpoint reach_id (PDict d2).
Proof.
  intros H. unfold endpoint_table.
  destruct (String.eqb_spec endpoint "retrospective") as [E|_]; [|reflexivity].
  destruct (H E) as [He Hs]. by rewrite (_retrospective_lookup W reach_id d1 d2).
Qed.

(** ** What of the request decides the answer *)

(** Of the query parameters the handlers read [format] and, for
    [retrospective] alone, [start_date] and [end_date]: two requests for
    the same endpoint and reach whose parameters agree on these keys get
    the same answer, whatever other keys they carry, whatever segments
    follow the reach and whatever the context object is.  In particular
    the date parameters do nothing on the three other endpoints. *)
Theorem answer_depends_on_three_keys W e1 e2 c1 c2 endpoint segment rest1 rest2
    (d1 d2 : gmap string pyval) :
  event_path e1 = Some ("v2" :: endpoint :: segment :: rest1) ->
  event_path e2 = Some ("v2" :: endpoint :: segment :: rest2) ->
  recognized endpoint = true ->
  query_parameters endpoint e1 = Ok (PDict d1) ->
  query_parameters endpoint e2 = Ok (PDict d2) ->
  d1 !! "format" = d2 !! "format" ->
  (endpoint = "retrospective" ->
   d1 !! "end_date" = d2 !! "end_date"
   /\ d1 !! "start_date" = d2 !! "start_date") ->
  lambda_handler W e1 c1 = lambda_handler W e2 c2.
Proof.
  intros Hp1 Hp2 Hrec Hq1 Hq2 Hfmt Hdates.
  rewrite (lambda_handler_dict W e1 c1 endpoint segment rest1 d1 Hp1 Hrec Hq1).
  rewrite (lambda_handler_dict W e2 c2 endpoint segment rest2 d2 Hp2 Hrec Hq2).
  destruct (int_of_str W segment) as [rid|]; [|reflexivity].
  by rewrite (endpoint_table_lookup W endpoint rid d1 d2 Hdates), Hfmt.
Qed.

Lemma answer_depends_on_three_keys_witness :
  lambda_handler Sample.lenient
    (Sample.http_event "/v2/daily_averages/12345678" None
       (Some (Sample.query [("format", "csv")]))) PNone
  = lambda_handler Sample.lenient
      (Sample.http_event "/v2/daily_averages/12345678/2020" None
         (Some (Sample.query [("format", "csv"); ("start_date", "2020-01-02");
                              ("units", "cms")]))) (PStr "context").
Proof.
  apply (answer_depends_on_three_keys Sample.lenient _ _ PNone (PStr "context")
           "daily_averages" "12345678" [] ["2020"]
           (list_to_map [("format", PStr "csv")])
           (list_to_map [("format", PStr "csv"); ("start_date", PStr "2020-01-02");
                         ("units", PStr "cms")]));
    try reflexivity.
  discriminate.
Defined.

(** [format=csv] asks for what is sent anyway: with the dates unchanged,
    spelling the format out and leaving it out give the same answer. *)
Theorem csv_is_the_default W e1 e2 c1 c2 endpoint segment rest
    (d1 d2 : gmap string pyval) :
  event_path e1 = Some ("v2" :: endpoint :: segment :: rest) ->
  event_path e2 = Some ("v2" :: endpoint :: segment :: rest) ->
  recognized endpoint = true ->
  query_parameters endpoint e1 = Ok (PDict d1) ->
  query_parameters endpoint e2 = Ok (PDict d2) ->
  d1 !! "format" = Some (PStr "csv") ->
  d2 !! "format" = None ->
  d1 !! "end_date" = d2 !! "end_date" ->
  d1 !! "start_date" = d2 !! "start_date" ->
  lambda_handler W e1 c1 = lambda_handler W e2 c2.
Proof.
  intros Hp1 Hp2 Hrec Hq1 Hq2 Hcsv Hnone He Hs.
  rewrite (lambda_handler_dict W e1 c1 endpoint segment rest d1 Hp1 Hrec Hq1).
  rewrite (lambda_handler_dict W e2 c2 endpoint segment rest d2 Hp2 Hrec Hq2).
  destruct (int_of_str W segment) as [rid|]; [|reflexivity].
  rewrite (endpoint_table_lookup W endpoint rid d1 d2) by done.
  by rewrite Hcsv, Hnone.
Qed.

Lemma csv_is_the_default_witness :
  lambda_handler Sample.lenient
    (Sample.http_event "/v2/retrospective/12345678"
       (Some (Sample.query [("format", "csv"); ("end_date", "2020-01-01")]))
       None) PNone
  = lambda_handler Sample.lenient
      (Sample.http_event "/v2/retrospective/12345678"
         (Some (Sample.query [("end_date", "2020-01-01")])) None) PNone.
Proof.
  apply (csv_is_the_default Sample.lenient _ _ PNone PNone
           "retrospective" "12345678" []
           (list_to_map [("format", PStr "csv"); ("end_date", PStr "2020-01-01")])
           (list_to_map [("end_date", PStr "2020-01-01")]));
    reflexivity.
Defined.

(** ** More on the date filter *)

(** The table of [_retrospective] when both dates are absent or accepted:
    the rows within the bounds. *)
Lemma _retrospective_filter_range W reach_id (d : gmap string pyval) series df
    start_date end_date :
  select_retrospective W reach_id = Ok series ->
  pivot reach_id series = Ok df ->
  date_bound W d "start_date" start_date ->
  date_bound W d "end_date" end_date ->
  _retrospective W reach_id (PDict d) = Ok (filter_range start_date end_date df).
Proof.
  intros Hsel Hpivot Hstart Hend.
  unfold _retrospective. rewrite Hsel. cbn. rewrite Hpivot. cbn.
  pose proof (date_bound_step W d "end_date" end_date
                (fun b t => match b with Some e => (t <=? e)%Z | None => true end)
                df Hend (fun _ => eq_refl)) as He.
  unfold index_le. cbn in He. cbn. rewrite He. cbn.
  pose proof (date_bound_step W d "start_date" start_date
                (fun b t => match b with Some s => (s <=? t)%Z | None => true end)
                (select_rows
                   (fun t => match end_date with
                             | Some e => (t <=? e)%Z
                             | None => true
                             end) df)
                Hstart (fun _ => eq_refl)) as Hs.
  unfold index_ge. cbn in Hs. cbn. rewrite Hs. cbn.
  unfold filter_range, select_rows. cbn. do 2 f_equal.
  rewrite filter_twice. reflexivity.
Qed.

Lemma filter_none {A} (f : A -> bool) (l : list A) :
  (forall x, f x = false) -> List.filter f l = [].
Proof.
  intros H. induction l as [|x l IH]; [reflexivity|]. cbn. by rewrite H.
Qed.

(** A start date after the end date is not an error: the table keeps its
    columns and loses every row. *)
Theorem inverted_range_is_empty W reach_id (d : gmap string pyval) series df s e :
  select_retrospective W reach_id = Ok series ->
  pivot reach_id series = Ok df ->
  date_bound W d "start_date" (Some s) ->
  date_bound W d "end_date" (Some e) ->
  (e < s)%Z ->
  _retrospective W reach_id (PDict d) = Ok (Frame (columns df) []).
Proof.
  intros Hsel Hpivot Hstart Hend Hlt.
  rewrite (_retrospective_filter_range W reach_id d series df (Some s) (Some e)
             Hsel Hpivot Hstart Hend).
  unfold filter_range, select_rows. do 2 f_equal.
  apply filter_none. intros r. unfold in_range.
  destruct (Z.leb_spec s (fst r)), (Z.leb_spec (fst r) e); cbn; try reflexivity.
  lia.
Qed.

Lemma inverted_range_is_empty_witness :
  _retrospective Sample.lenient 12345678
    (PDict {[ "start_date" := PStr "2020-01-03"; "end_date" := PStr "2020-01-01" ]})
  = Ok (Frame [CInt 12345678] []).
Proof.
  apply (inverted_range_is_empty Sample.lenient 12345678
           {[ "start_date" := PStr "2020-01-03"; "end_date" := PStr "2020-01-01" ]}
           Sample.series
           (Frame [CInt 12345678]
                  [ (Sample.midnight 2019 12 31, [1400%Z]);
                    (Sample.midnight 2020 1 1, [1500%Z]);
                    (Sample.midnight 2020 1 2, [1600%Z]);
                    (Sample.midnight 2020 1 3, [1700%Z]) ])
           (Sample.midnight 2020 1 3) (Sample.midnight 2020 1 1)).
  - reflexivity.
  - vm_compute. reflexivity.
  - right. exists (PStr "2020-01-03"), (Sample.midnight 2020 1 3).
    repeat split; reflexivity.
  - right. exists (PStr "2020-01-01"), (Sample.midnight 2020 1 1).
    repeat split; reflexivity.
  - vm_compute. reflexivity.
Defined.

(** A date the parser refuses is reported with the parser's message, and
    [end_date] is looked at first: when it is refused, [start_date] and
    [format] are never examined.  A refused [start_date] is reported
    whenever the [end_date] step lets the request through: the key is
    absent, or its value is false, or the parser accepts it (whatever it
    makes of it). *)
Theorem rejected_date_is_reported W event context segment rest
    (d : gmap string pyval) reach_id series v e :
  event_path event = Some ("v2" :: "retrospective" :: segment :: rest) ->
  query_parameters "retrospective" event = Ok (PDict d) ->
  int_of_str W segment = Some reach_id ->
  select_retrospective W reach_id = Ok series ->
  NoDup (map fst series) ->
  truthy v = true ->
  to_datetime W v = Raise e ->
  d !! "end_date" = Some v
  \/ (d !! "start_date" = Some v
      /\ (forall w, d !! "end_date" = Some w -> truthy w = true ->
                    exists ts, to_datetime W w = Ok ts)) ->
  lambda_handler W event context =
    PDict {[ "statesCode" := PInt 400;
             "body" := PStr ("Bad request: " +:+ exn_str e) ]}.
Proof.
  intros Hp Hq Hint Hsel Hnodup Hv Hparse Hwhich.
  rewrite (lambda_handler_dict W event context "retrospective" segment rest d
             Hp eq_refl Hq).
  rewrite Hint.
  assert (Htable : _retrospective W reach_id (PDict d) = Raise e).
  { unfold _retrospective. rewrite Hsel. cbn.
    rewrite (pivot_distinct _ _ Hnodup). cbn.
    destruct Hwhich as [Hend | [Hstart Hpass]].
    - rewrite Hend. cbn. rewrite Hv. cbn. by rewrite Hparse.
    - destruct (d !! "end_date") as [w|] eqn:Hend; cbn.
      + destruct (truthy w) eqn:Hw; cbn.
        * destruct (Hpass w eq_refl Hw) as [ts ->]. cbn.
          rewrite Hstart. cbn. rewrite Hv. cbn. by rewrite Hparse.
        * rewrite Hstart. cbn. rewrite Hv. cbn. by rewrite Hparse.
      + rewrite Hstart. cbn. rewrite Hv. cbn. by rewrite Hparse. }
  unfold endpoint_table. cbn [String.eqb Ascii.eqb Bool.eqb].
  by rewrite Htable.
Qed.

Lemma rejected_date_is_reported_witness :
  lambda_handler Sample.lenient
    (Sample.http_event "/v2/retrospective/12345678"
       (Some (Sample.query [("end_date", "tomorrow"); ("start_date", "yesterday");
                            ("format", "xml")])) None) PNone =
    PDict {[ "statesCode" := PInt 400;
             "body" := PStr ("Bad request: "
                             +:+ "Unknown datetime string format, unable to parse: tomorrow") ]}
  /\ lambda_handler Sample.lenient
       (Sample.http_event "/v2/retrospective/12345678"
          (Some (Sample.query [("end_date", ""); ("start_date", "yesterday")])) None)
       PNone =
     PDict {[ "statesCode" := PInt 400;
              "body" := PStr ("Bad request: "
                              +:+ "Unknown datetime string format, unable to parse: yesterday") ]}.
Proof.
  split.
  - apply (rejected_date_is_reported Sample.lenient _ PNone "12345678" []
             (list_to_map [("end_date", PStr "tomorrow");
                           ("start_date", PStr "yesterday"); ("format", PStr "xml")])
             12345678 Sample.series (PStr "tomorrow")
             (Exn ValueError "Unknown datetime string format, unable to parse: tomorrow"));
      try reflexivity.
    + exact sample_series_distinct.
    + left. reflexivity.
  - apply (rejected_date_is_reported Sample.lenient _ PNone "12345678" []
             (list_to_map [("end_date", PStr ""); ("start_date", PStr "yesterday")])
             12345678 Sample.series (PStr "yesterday")
             (Exn ValueError "Unknown datetime string format, unable to parse: yesterday"));
      try reflexivity.
    + exact sample_series_distinct.
    + right. split; [reflexivity|].
      intros w Hw Hfalse. vm_compute in Hw. injection Hw as <-.
      vm_compute in Hfalse. discriminate Hfalse.
Defined.

(** ** What [_retrospective] keeps true of its table *)

#[global] Instance by_time_total {cell} : Total (@by_time cell).
Proof. intros a b. unfold by_time. lia. Qed.

#[global] Instance by_time_transitive {cell} : Transitive (@by_time cell).
Proof. intros a b c. unfold by_time. lia. Qed.

Lemma filter_sublist {A} (f : A -> bool) (l : list A) :
  List.filter f l `sublist_of` l.
Proof.
  induction l as [|x l IH]; cbn; [constructor|].
  destruct (f x); by constructor.
Qed.

Lemma sublist_map_fst {A B} (l1 l2 : list (A * B)) :
  l1 `sublist_of` l2 -> map fst l1 `sublist_of` map fst l2.
Proof. induction 1; cbn; by constructor. Qed.

Lemma sublist_strongly_sorted {A} (R : relation A) (l1 l2 : list A) :
  l1 `sublist_of` l2 -> StronglySorted R l2 -> StronglySorted R l1.
Proof.
  induction 1 as [|x l1 l2 Hsub IH|x l1 l2 Hsub IH]; intros Hsorted.
  - constructor.
  - apply StronglySorted_inv in Hsorted as [Hrest Hall].
    constructor; [by apply IH|].
    apply Forall_forall. intros y Hy. rewrite Forall_forall in Hall.
    apply Hall. by eapply sublist_subseteq.
  - apply StronglySorted_inv in Hsorted as [Hrest _]. by apply IH.
Qed.

Lemma by_time_strict {cell} (l : list (Z * cell)) :
  StronglySorted by_time l -> NoDup (map fst l) ->
  StronglySorted Z.lt (map fst l).
Proof.
  induction 1 as [|x l Hsorted IH Hall]; cbn; intros Hnodup; [constructor|].
  apply NoDup_cons in Hnodup as [Hx Hnodup].
  constructor; [by apply IH|].
  apply Forall_forall. intros t Ht.
  apply list_elem_of_In, in_map_iff in Ht as (y & <- & Hy).
  rewrite Forall_forall in Hall. apply list_elem_of_In in Hy.
  pose proof (Hall y Hy) as Hle. unfold by_time in Hle.
  assert (fst x <> fst y); [|lia].
  intros Heq. apply Hx. rewrite Heq. apply list_elem_of_In, in_map.
  by apply list_elem_of_In.
Qed.

Lemma pivot_inv {cell} (reach_id : Z) (series : list (Z * cell)) df :
  pivot reach_id series = Ok df ->
  NoDup (map fst series)
  /\ df = Frame (match series with [] => [] | _ :: _ => [CInt reach_id] end)
                (map (fun r => (fst r, [snd r])) (merge_sort by_time series)).
Proof.
  unfold pivot. destruct (bool_decide (NoDup (map fst series))) eqn:E;
    [|discriminate].
  intros [= <-]. split; [|reflexivity]. by apply bool_decide_eq_true_1 in E.
Qed.

Lemma pivot_increasing {cell} (reach_id : Z) (series : list (Z * cell)) df :
  pivot reach_id series = Ok df -> StronglySorted Z.lt (index df).
Proof.
  intros [Hnodup ->]%pivot_inv. unfold index. cbn. rewrite map_map. cbn.
  apply by_time_strict.
  - apply StronglySorted_merge_sort; apply _.
  - change (NoDup (fst <$> merge_sort by_time series)).
    rewrite merge_sort_Permutation. exact Hnodup.
Qed.

(** One [if] block of [_retrospective] either fails or hands on a table
    with the same columns and some of the rows, in their order. *)
Lemma date_step_keeps W params key given (keep : option Z -> Z -> bool)
    (df out : DataFrame Z (cell W)) :
  (if truthy given then
     v ← getitem params key;
     ts ← to_datetime W v;
     Ok (select_rows (keep ts) df)
   else Ok df) = Ok out ->
  columns out = columns df /\ rows out `sublist_of` rows df.
Proof.
  destruct (truthy given).
  - destruct (getitem params key) as [v|e]; [|discriminate]. cbn.
    destruct (to_datetime W v) as [ts|e]; [|discriminate]. cbn.
    intros [= <-]. split; [reflexivity|]. apply filter_sublist.
  - intros [= <-]. by split.
Qed.

(** Whatever the parameters, a table [_retrospective] returns is the
    pivoted series of the reach with rows taken out: the single column of
    the reach, times strictly increasing, and every row one of the
    store's, with its value untouched. *)
Theorem retrospective_table_invariant W reach_id params out :
  _retrospective W reach_id params = Ok out ->
  exists series df,
    select_retrospective W reach_id = Ok series
    /\ pivot reach_id series = Ok df
    /\ columns out = columns df
    /\ rows out `sublist_of` rows df
    /\ StronglySorted Z.lt (index out)
    /\ (forall t cells, In (t, cells) (rows out) ->
                        exists q, cells = [q] /\ In (t, q) series).
Proof.
  unfold _retrospective.
  destruct (select_retrospective W reach_id) as [series|e] eqn:Hsel; [|discriminate].
  cbn. destruct (pivot reach_id series) as [df|e] eqn:Hpivot; [|discriminate]. cbn.
  destruct (dict_get params "end_date") as [end_date|e]; [|discriminate]. cbn.
  destruct (if truthy end_date then _ else _) as [df1|e] eqn:H1; [|discriminate].
  cbn. destruct (dict_get params "start_date") as [start_date|e]; [|discriminate].
  cbn. destruct (if truthy start_date then _ else _) as [df2|e] eqn:H2;
    [|discriminate].
  cbn. intros [= <-].
  destruct (date_step_keeps W params "end_date" end_date index_le df df1 H1)
    as [Hc1 Hr1].
  destruct (date_step_keeps W params "start_date" start_date index_ge df1 df2 H2)
    as [Hc2 Hr2].
  assert (Hsub : rows df2 `sublist_of` rows df) by (by etrans).
  exists series, df. repeat split; try done.
  - congruence.
  - apply (sublist_strongly_sorted _ _ (index df)).
    + by apply sublist_map_fst.
    + by eapply pivot_increasing.
  - intros t cells Hin.
    apply list_elem_of_In in Hin.
    pose proof (sublist_subseteq _ _ Hsub _ Hin) as Hin'.
    apply pivot_inv in Hpivot as [_ ->]. cbn in Hin'.
    apply list_elem_of_In, in_map_iff in Hin' as ([t' q] & [= <- <-] & Hq).
    exists q. split; [reflexivity|].
    apply list_elem_of_In. apply list_elem_of_In in Hq.
    by rewrite merge_sort_Permutation in Hq.
Qed.

Lemma retrospective_table_invariant_witness :
  exists series df,
    select_retrospective Sample.lenient 12345678 = Ok series
    /\ pivot 12345678 series = Ok df
    /\ columns (Frame [CInt 12345678]
                  [ (Sample.midnight 2020 1 1, [1500%Z]);
                    (Sample.midnight 2020 1 2, [1600%Z]) ]) = columns df
    /\ rows (Frame [CInt 12345678]
               [ (Sample.midnight 2020 1 1, [1500%Z]);
                 (Sample.midnight 2020 1 2, [1600%Z]) ]) `sublist_of` rows df
    /\ StronglySorted Z.lt
         (index (Frame (cell := Z) [CInt 12345678]
                   [ (Sample.midnight 2020 1 1, [1500%Z]);
                     (Sample.midnight 2020 1 2, [1600%Z]) ]))
    /\ (forall t cells,
           In (t, cells)
              (rows (Frame [CInt 12345678]
                       [ (Sample.midnight 2020 1 1, [1500%Z]);
                         (Sample.midnight 2020 1 2, [1600%Z]) ])) ->
           exists q, cells = [q] /\ In (t, q) series).
Proof.
  apply (retrospective_table_invariant Sample.lenient 12345678
           (Sample.query [("start_date", "2020-01-01"); ("end_date", "2020-01-02")])).
  vm_compute. reflexivity.
Defined.

(** ** The shape of the answers *)

Lemma printable_ascii_append (a b : string) :
  printable_ascii (a +:+ b) = printable_ascii a && printable_ascii b.
Proof.
  induction a as [|c a IH]; [reflexivity|].
  rewrite append_cons. cbn. rewrite IH. by rewrite andb_assoc.
Qed.

Lemma json_escape_char_printable c : printable_ascii (json_escape_char c) = true.
Proof.
  destruct c as [b0 b1 b2 b3 b4 b5 b6 b7].
  destruct b0, b1, b2, b3, b4, b5, b6, b7; vm_compute; reflexivity.
Qed.

Lemma concat_map_escape_printable s :
  printable_ascii (concat_map json_escape_char s) = true.
Proof.
  induction s as [|c s IH]; [reflexivity|]. cbn [concat_map].
  by rewrite printable_ascii_append, json_escape_char_printable, IH.
Qed.

Lemma json_dumps_str_printable s : printable_ascii (json_dumps_str s) = true.
Proof.
  change (json_dumps_str s)
    with (str1 dquote +:+ (concat_map json_escape_char s +:+ str1 dquote)).
  rewrite !printable_ascii_append, concat_map_escape_printable. reflexivity.
Qed.

(** The body of a success is plain printable ASCII: the line breaks of
    the CSV text, any quote and any character beyond ASCII arrive escaped
    inside one JSON string literal. *)
Theorem success_body_is_printable W endpoint path event response :
  recognized endpoint = true ->
  handler_of W endpoint path event = Ok response ->
  successful response ->
  exists body, body_of response = Some body /\ printable_ascii body = true
               /\ contains_char LF body = false.
Proof.
  intros Hrec H Hsucc. rewrite (handler_of_shape W endpoint path event Hrec) in H.
  destruct (handler_shape_success W endpoint path event response H Hsucc)
    as (segment & rid & params & table & text & _ & _ & _ & _ & ->).
  exists (json_dumps_str text). split; [by apply body_of_envelope|].
  pose proof (json_dumps_str_printable text) as Hprint.
  split; [exact Hprint|].
  clear -Hprint. induction (json_dumps_str text) as [|c s IH]; [reflexivity|].
  cbn in Hprint. apply andb_true_iff in Hprint as [Hc Hs].
  cbn. rewrite (IH Hs), orb_false_r.
  destruct (Ascii.eqb_spec LF c) as [<-|]; [discriminate Hc | reflexivity].
Qed.

Lemma success_body_is_printable_witness :
  exists body,
    body_of (PDict {[ "statusCode" := PInt 200;
                      "body" := PStr (json_dumps_str
                                        (join (str1 LF) ["12345678"; "1400"; "1500";
                                                         "1600"; "1700"; ""])) ]})
    = Some body
    /\ printable_ascii body = true /\ contains_char LF body = false.
Proof.
  apply (success_body_is_printable Sample.lenient "retrospective"
           ["v2"; "retrospective"; "12345678"]
           (Sample.http_event "/v2/retrospective/12345678" None None)).
  - reflexivity.
  - exact sample_retrospective_success.
  - eexists. split; [reflexivity|]. by eexists.
Defined.

Lemma code_of_statusCode code body :
  code_of (PDict {[ "statusCode" := PInt code; "body" := PStr body ]}) = Some code.
Proof. unfold code_of. by rewrite lookup_insert_eq. Qed.

Lemma code_of_statesCode code body :
  code_of (PDict {[ "statesCode" := PInt code; "body" := PStr body ]}) = Some code.
Proof.
  unfold code_of. rewrite lookup_insert_ne by discriminate.
  rewrite lookup_singleton_ne by discriminate. by rewrite lookup_insert_eq.
Qed.

(** Whatever the event and whatever the world, [lambda_handler] answers
    with a dictionary of two entries, a code and a [body] that is a [str];
    the code is 200 under [statusCode] or 400 or 422 under [statesCode],
    so that no error carries the key a success carries. *)
Theorem response_shape W event context :
  exists key code body,
    lambda_handler W event context = PDict {[ key := PInt code; "body" := PStr body ]}
    /\ ((key = "statusCode" /\ code = 200%Z)
        \/ (key = "statesCode" /\ (code = 400 \/ code = 422)%Z)).
Proof.
  destruct (event_path event) as [p|] eqn:Hp.
  2:{ pose proof (check_if_valid_request_no_path event Hp) as Hcheck.
      rewrite (lambda_handler_rejected W event context _ Hcheck). eauto 10. }
  destruct p as [|first [|endpoint [|segment rest]]].
  1-3: rewrite (short_path_responses W event context _ Hp) by (cbn; lia).
  - eauto 10.
  - destruct (negb (String.eqb first "v2")); eauto 10.
  - destruct (negb (String.eqb first "v2")); [eauto 10|].
    destruct (recognized endpoint); eauto 10.
  - destruct (String.eqb_spec first "v2") as [-> | Hne].
    2:{ assert (Hcheck : exists envelope, check_if_valid_request event = Rejected envelope).
        { rewrite (check_if_valid_request_path _ _ Hp).
          destruct (String.eqb_spec first "v2"); [done|]. cbn. eauto. }
        destruct Hcheck as [envelope Hcheck].
        rewrite (lambda_handler_rejected W event context _ Hcheck). eauto 10. }
    destruct (recognized endpoint) eqn:Hrec.
    + destruct (query_parameters_total endpoint event _ Hp) as [q Hq].
      rewrite (lambda_handler_run W event context endpoint segment rest q Hp Hrec Hq).
      destruct (int_of_str W segment); [|eauto 10]. cbn zeta.
      destruct (_ ≫= _); eauto 10.
    + unfold lambda_handler. rewrite (dispatch_v2 _ _ _ _ Hp). cbn zeta.
      unfold recognized in Hrec.
      destruct (String.eqb endpoint "retrospective"); [discriminate|].
      destruct (String.eqb endpoint "daily_averages"); [discriminate|].
      destruct (String.eqb endpoint "monthly_averages"); [discriminate|].
      destruct (String.eqb endpoint "returnperiods"); [discriminate|].
      eauto 10.
Qed.

(** The code 422 means one thing only: the path is [v2] and a recognized
    endpoint name with nothing after it.  The 422 that
    [check_if_valid_request] prepares for a wrong version is never sent. *)
Theorem code_422_means_missing_reach W event context :
  code_of (lambda_handler W event context) = Some 422%Z <->
  exists endpoint,
    event_path event = Some ["v2"; endpoint] /\ recognized endpoint = true.
Proof.
  split.
  - destruct (event_path event) as [p|] eqn:Hp.
    2:{ pose proof (check_if_valid_request_no_path event Hp) as Hcheck.
        rewrite (lambda_handler_rejected W event context _ Hcheck).
        rewrite code_of_statesCode. discriminate. }
    destruct p as [|first [|endpoint [|segment rest]]].
    1-3: rewrite (short_path_responses W event context _ Hp) by (cbn; lia).
    + rewrite code_of_statesCode. discriminate.
    + destruct (negb (String.eqb first "v2")); rewrite code_of_statesCode;
        discriminate.
    + destruct (String.eqb_spec first "v2") as [-> | Hne]; cbn [negb].
      * destruct (recognized endpoint) eqn:Hrec.
        -- intros _. by exists endpoint.
        -- rewrite code_of_statusCode. discriminate.
      * rewrite code_of_statesCode. discriminate.
    + destruct (String.eqb_spec first "v2") as [-> | Hne].
      2:{ assert (Hcheck : exists envelope,
                     check_if_valid_request event = Rejected envelope).
          { rewrite (check_if_valid_request_path _ _ Hp).
            destruct (String.eqb_spec first "v2"); [done|]. cbn. eauto. }
          destruct Hcheck as [envelope Hcheck].
          rewrite (lambda_handler_rejected W event context _ Hcheck).
          rewrite code_of_statesCode. discriminate. }
      destruct (recognized endpoint) eqn:Hrec.
      * destruct (query_parameters_total endpoint event _ Hp) as [q Hq].
        rewrite (lambda_handler_run W event context endpoint segment rest q
                   Hp Hrec Hq).
        destruct (int_of_str W segment);
          [|rewrite code_of_statesCode; discriminate].
        cbn zeta.
        destruct (_ ≫= _); rewrite ?code_of_statusCode, ?code_of_statesCode;
          discriminate.
      * unfold lambda_handler. rewrite (dispatch_v2 _ _ _ _ Hp). cbn zeta.
        unfold recognized in Hrec.
        destruct (String.eqb endpoint "retrospective"); [discriminate|].
        destruct (String.eqb endpoint "daily_averages"); [discriminate|].
        destruct (String.eqb endpoint "monthly_averages"); [discriminate|].
        destruct (String.eqb endpoint "returnperiods"); [discriminate|].
        rewrite code_of_statusCode. discriminate.
  - intros (endpoint & Hp & Hrec).
    rewrite (short_path_responses W event context _ Hp) by (cbn; lia).
    cbn [String.eqb Ascii.eqb Bool.eqb negb]. rewrite Hrec.
    apply code_of_statesCode.
Qed.

(** ** The handlers called on their own *)

(** The three handlers that look under [requestContext] raise a
    [KeyError] on an event without that key, before the reach is even
    parsed and outside what their [except ValueError] catches;
    [retrospective] does not look there and answers as if the key were
    present. *)
Theorem missing_request_context_raises W path (d : gmap string pyval) :
  (2 < length path)%nat ->
  d !! "requestContext" = None ->
  daily_averages W path (PDict d) = Raise (Exn KeyError "'requestContext'")
  /\ monthly_averages W path (PDict d) = Raise (Exn KeyError "'requestContext'")
  /\ returnperiods W path (PDict d) = Raise (Exn KeyError "'requestContext'")
  /\ (forall rc, retrospective W path (PDict d)
                 = retrospective W path (PDict (<["requestContext" := rc]> d))).
Proof.
  intros Hlen Hnone.
  assert (Hguard : negb (2 <? length path)%nat = false).
  { apply negb_false_iff, Nat.ltb_lt, Hlen. }
  repeat split.
  - unfold daily_averages. rewrite Hguard. cbn. rewrite Hnone. reflexivity.
  - unfold monthly_averages. rewrite Hguard. cbn. rewrite Hnone. reflexivity.
  - unfold returnperiods. rewrite Hguard. cbn. rewrite Hnone. reflexivity.
  - intros rc. unfold retrospective. rewrite Hguard. cbn.
    by rewrite lookup_insert_ne.
Qed.

Lemma missing_request_context_raises_witness :
  let path := ["v2"; "daily_averages"; "oops"] in
  let d : gmap string pyval := {[ "queryStringParameters" := PNone ]} in
  daily_averages Sample.lenient path (PDict d)
    = Raise (Exn KeyError "'requestContext'")
  /\ monthly_averages Sample.lenient path (PDict d)
     = Raise (Exn KeyError "'requestContext'")
  /\ returnperiods Sample.lenient path (PDict d)
     = Raise (Exn KeyError "'requestContext'")
  /\ (forall rc, retrospective Sample.lenient path (PDict d)
                 = retrospective Sample.lenient path
                     (PDict (<["requestContext" := rc]> d))).
Proof.
  intros path d.
  apply (missing_request_context_raises Sample.lenient path d);
    [cbn; lia | reflexivity].
Defined.

(** ** The calendar behind the group keys *)

(** The year of the era and the day of the year are read back from a day
    of the era built from them; a day 365 needs a year whose February,
    which closes it, has 29 days. *)
Lemma day_of_year_round_trip yoe doy :
  (0 <= yoe < 400)%Z -> (0 <= doy)%Z ->
  (doy <= 364
   \/ (doy = 365 /\ (yoe + 1) mod 4 = 0
       /\ ((yoe + 1) mod 100 <> 0 \/ yoe = 399)))%Z ->
  Calendar.day_of_year (yoe * 365 + yoe / 4 - yoe / 100 + doy) = doy.
Proof.
  intros Hy Hd Hl. unfold Calendar.day_of_year, Calendar.year_of_era.
  assert (Hyoe : ((yoe * 365 + yoe / 4 - yoe / 100 + doy
                   - (yoe * 365 + yoe / 4 - yoe / 100 + doy) / 1460
                   + (yoe * 365 + yoe / 4 - yoe / 100 + doy) / 36524
                   - (yoe * 365 + yoe / 4 - yoe / 100 + doy) / 146096) / 365
                  = yoe)%Z).
  { Z.to_euclidean_division_equations. lia. }
  rewrite Hyoe. lia.
Qed.

Lemma day_of_era_of_day (era doe : Z) :
  (0 <= doe < 146097)%Z ->
  Calendar.day_of_era (era * 146097 + doe - 719468) = doe.
Proof.
  intros H. unfold Calendar.day_of_era.
  replace (era * 146097 + doe - 719468 + 719468)%Z with (doe + era * 146097)%Z
    by lia.
  rewrite Z_mod_plus_full. by apply Z.mod_small.
Qed.

Lemma days_in_month_bounds y m d :
  (d <= days_in_month y m)%Z ->
  (d <= 31)%Z
  /\ (m = 4 \/ m = 6 \/ m = 9 \/ m = 11 -> d <= 30)%Z
  /\ (m = 2 -> d <= 29)%Z
  /\ (m = 2 -> d = 29 -> y mod 4 = 0 /\ (y mod 100 <> 0 \/ y mod 400 = 0))%Z.
Proof.
  unfold days_in_month, leap_year.
  destruct (Z.eqb_spec m 2), (Z.eqb_spec m 4), (Z.eqb_spec m 6),
    (Z.eqb_spec m 9), (Z.eqb_spec m 11), (Z.eqb_spec (y mod 4) 0),
    (Z.eqb_spec (y mod 100) 0), (Z.eqb_spec (y mod 400) 0); cbn; lia.
Qed.

(** Month and day are read back from the day of the March-based year. *)
Lemma month_day_of_doy m d :
  (1 <= m <= 12)%Z -> (1 <= d <= 31)%Z ->
  (m = 4 \/ m = 6 \/ m = 9 \/ m = 11 -> d <= 30)%Z ->
  (m = 2 -> d <= 29)%Z ->
  let doy := ((153 * (if 2 <? m then m - 3 else m + 9) + 2) / 5 + d - 1)%Z in
  Calendar.month_of_doy doy = m /\ Calendar.day_of_doy doy = d.
Proof.
  intros Hm Hd H30 H29. cbn zeta.
  unfold Calendar.month_of_doy, Calendar.day_of_doy, Calendar.month_from_march.
  destruct (Z.ltb_spec 2 m);
    match goal with
    | |- context [if ?c then _ else _] => destruct c eqn:E
    end;
    try apply Z.ltb_lt in E; try apply Z.ltb_ge in E;
    Z.to_euclidean_division_equations; lia.
Qed.

(** A date is read back from its day number, in every year. *)
Lemma month_day_round_trip y m d :
  (1 <= m <= 12)%Z -> (1 <= d <= days_in_month y m)%Z ->
  month_day_of_day_number (Sample.days_from_civil y m d) = (m, d).
Proof.
  intros Hm Hd.
  destruct (days_in_month_bounds y m d (proj2 Hd)) as (H31 & H30 & H29 & Hleap).
  unfold month_day_of_day_number, Sample.days_from_civil.
  set (y' := (if (m <=? 2)%Z then y - 1 else y)%Z).
  set (era := (y' / 400)%Z).
  set (yoe := (y' - era * 400)%Z).
  set (doy := ((153 * (if 2 <? m then m - 3 else m + 9) + 2) / 5 + d - 1)%Z).
  assert (Hyoe : (0 <= yoe < 400)%Z).
  { subst yoe era. Z.to_euclidean_division_equations. lia. }
  assert (Hdoy : (0 <= doy)%Z
                 /\ (doy <= 364
                     \/ (doy = 365 /\ (yoe + 1) mod 4 = 0
                         /\ ((yoe + 1) mod 100 <> 0 \/ yoe = 399)))%Z).
  { subst doy. destruct (Z.ltb_spec 2 m) as [Hgt | Hle].
    - split; [Z.to_euclidean_division_equations; lia|]. left.
      Z.to_euclidean_division_equations. lia.
    - split; [Z.to_euclidean_division_equations; lia|].
      assert (m = 1 \/ m = 2)%Z as [-> | ->] by lia.
      + left. Z.to_euclidean_division_equations. lia.
      + assert (d <= 28 \/ d = 29)%Z as [Hd28 | ->] by lia.
        * left. Z.to_euclidean_division_equations. lia.
        * right. destruct (Hleap eq_refl eq_refl) as [H4 H100].
          split; [reflexivity|].
          subst yoe era y'. change (2 <=? 2)%Z with true. cbn iota.
          Z.to_euclidean_division_equations. lia. }
  destruct Hdoy as [Hdoy0 Hdoy1].
  assert (Hdoe : (0 <= yoe * 365 + yoe / 4 - yoe / 100 + doy < 146097)%Z).
  { Z.to_euclidean_division_equations. lia. }
  rewrite (day_of_era_of_day era _ Hdoe).
  rewrite (day_of_year_round_trip yoe doy Hyoe Hdoy0 Hdoy1).
  destruct (month_day_of_doy m d Hm (conj (proj1 Hd) H31) H30 H29) as [Hmonth Hday].
  fold doy in Hmonth, Hday. by rewrite Hmonth, Hday.
Qed.


Lemma day_number_midnight y m d ns :
  (0 <= ns < Calendar.ns_per_day)%Z ->
  Calendar.day_number (Sample.midnight y m d + ns) = Sample.days_from_civil y m d.
Proof.
  intros Hns. unfold Calendar.day_number, Sample.midnight.
  symmetry. apply (Z.div_unique _ _ _ ns); unfold Calendar.ns_per_day in *; lia.
Qed.

(** The keys are the calendar's: at any time of the day [d] of month [m]
    of any year, Gregorian leap years included, the daily key is the two
    digits of [m] followed by the two digits of [d] and the monthly key
    the two digits of [m].  Rows of the same day of different years share
    a group. *)
Theorem keys_follow_the_calendar y m d ns :
  (1 <= m <= 12)%Z -> (1 <= d <= days_in_month y m)%Z ->
  (0 <= ns < Calendar.ns_per_day)%Z ->
  Calendar.strftime_md (Sample.midnight y m d + ns)
    = Calendar.two_digits m +:+ Calendar.two_digits d
  /\ Calendar.strftime_m (Sample.midnight y m d + ns) = Calendar.two_digits m.
Proof.
  intros Hm Hd Hns.
  pose proof (month_day_round_trip y m d Hm Hd) as Hmd.
  unfold month_day_of_day_number in Hmd. injection Hmd as Hmonth Hday.
  unfold Calendar.strftime_md, Calendar.strftime_m, Calendar.month,
    Calendar.md_of_doy, Calendar.m_of_month, Calendar.doy_of.
  rewrite (day_number_midnight y m d ns Hns). by rewrite Hmonth, Hday.
Qed.

Lemma keys_follow_the_calendar_witness :
  Calendar.strftime_md (Sample.midnight 2024 2 29 + 3600000000000)
    = Calendar.two_digits 2 +:+ Calendar.two_digits 29
  /\ Calendar.strftime_m (Sample.midnight 2024 2 29 + 3600000000000)
     = Calendar.two_digits 2.
Proof.
  apply (keys_follow_the_calendar 2024 2 29 3600000000000);
    vm_compute; split; congruence.
Defined.

(** ** Parameters that are there and count for nothing *)

(** A [queryStringParameters] that is missing, [None], an empty
    dictionary or any other false value is one and the same request: the
    handler works with its own empty dictionary. *)
Theorem false_parameters_are_no_parameters W e1 e2 c1 c2 endpoint segment
    rest q1 q2 :
  event_path e1 = Some ("v2" :: endpoint :: segment :: rest) ->
  event_path e2 = Some ("v2" :: endpoint :: segment :: rest) ->
  recognized endpoint = true ->
  query_parameters endpoint e1 = Ok q1 -> truthy q1 = false ->
  query_parameters endpoint e2 = Ok q2 -> truthy q2 = false ->
  lambda_handler W e1 c1 = lambda_handler W e2 c2.
Proof.
  intros Hp1 Hp2 Hrec Hq1 Hf1 Hq2 Hf2.
  rewrite (lambda_handler_run W e1 c1 endpoint segment rest q1 Hp1 Hrec Hq1).
  rewrite (lambda_handler_run W e2 c2 endpoint segment rest q2 Hp2 Hrec Hq2).
  by rewrite Hf1, Hf2.
Qed.

Lemma false_parameters_are_no_parameters_witness :
  lambda_handler Sample.lenient
    (Sample.http_event "/v2/returnperiods/12345678" None None) PNone
  = lambda_handler Sample.lenient
      (Sample.http_event "/v2/returnperiods/12345678" None (Some PNone)) PNone.
Proof.
  apply (false_parameters_are_no_parameters Sample.lenient _ _ PNone PNone
           "returnperiods" "12345678" [] (PBool false) PNone);
    reflexivity.
Defined.

(** ** The text of the climatologies *)

Lemma column_values_pivoted {cell} (keep : Z -> bool) (l : list (Z * cell)) :
  column_values 0 (List.filter (fun r => keep (fst r))
                     (map (fun r => (fst r, [snd r])) l))
  = map snd (List.filter (fun r => keep (fst r)) l).
Proof.
  induction l as [|[t q] l IH]; [reflexivity|]. cbn.
  destruct (keep t); cbn; [|exact IH].
  unfold column_values in *. cbn. by rewrite IH.
Qed.

Lemma index_pivoted {cell} cols (l : list (Z * cell)) :
  index (Frame cols (map (fun r => (fst r, [snd r])) l)) = map fst l.
Proof. unfold index. cbn. rewrite map_map. reflexivity. Qed.

Lemma to_csv_grouped W key reach_id (series : list (Z * cell W)) :
  to_csv W (groupby_mean (mean W) key
              (Frame (match series with [] => [] | _ :: _ => [CInt reach_id] end)
                     (map (fun r => (fst r, [snd r])) (merge_sort by_time series))))
  = averages_csv W key reach_id series.
Proof.
  unfold to_csv, averages_csv, groupby_mean. cbn [columns rows].
  rewrite index_pivoted, map_map. f_equal.
  { by destruct series. }
  f_equal. apply map_ext. intros k. cbn [snd]. f_equal.
  destruct series as [|r0 series0]; [reflexivity|]. cbn [length seq map].
  do 3 f_equal.
  apply (column_values_pivoted (fun t => String.eqb (key t) k)).
Qed.

(** A request for a climatology without query parameters, for a reach
    with at least one stored timestamp, is answered with 200 and the JSON
    encoding of a CSV text that holds the reach id and then one mean per
    key in key order: [index=False] leaves the keys themselves out, so
    the text does not say which day or month a mean belongs to. *)
Theorem climatology_csv_omits_keys W event context endpoint segment rest q
    reach_id series :
  event_path event = Some ("v2" :: endpoint :: segment :: rest) ->
  endpoint = "daily_averages" \/ endpoint = "monthly_averages" ->
  query_parameters endpoint event = Ok q ->
  truthy q = false ->
  int_of_str W segment = Some reach_id ->
  select_retrospective W reach_id = Ok series ->
  NoDup (map fst series) ->
  series <> [] ->
  lambda_handler W event context =
    PDict {[ "statusCode" := PInt 200;
             "body" := PStr (json_dumps_str
                               (averages_csv W
                                  (if String.eqb endpoint "daily_averages"
                                   then Calendar.strftime_md
                                   else Calendar.strftime_m)
                                  reach_id series)) ]}
  /\ exists records,
       averages_csv W
         (if String.eqb endpoint "daily_averages"
          then Calendar.strftime_md else Calendar.strftime_m) reach_id series
       = csv_writerow W [str_int reach_id] +:+ records.
Proof.
  intros Hp Hep Hq Hfalse Hint Hsel Hnodup Hne.
  split; [|destruct series; [done|]; unfold averages_csv; eauto].
  assert (Hrec : recognized endpoint = true) by (by destruct Hep as [-> | ->]).
  rewrite (lambda_handler_run W event context endpoint segment rest q Hp Hrec Hq).
  rewrite Hint, Hfalse. cbn zeta.
  assert (Hretro : _retrospective W reach_id (PDict ∅)
                   = Ok (Frame (match series with [] => [] | _ :: _ => [CInt reach_id] end)
                               (map (fun r => (fst r, [snd r]))
                                    (merge_sort by_time series)))).
  { rewrite (_retrospective_unfiltered W reach_id ∅) by apply lookup_empty.
    rewrite Hsel. cbn. apply pivot_distinct, Hnodup. }
  destruct Hep as [-> | ->]; unfold endpoint_table;
    cbn [String.eqb Ascii.eqb Bool.eqb]; rewrite Hretro;
    cbn [fmap result_fmap mbind result_bind];
    rewrite (output_of_default W (PDict ∅) _ (PBool false)) by reflexivity;
    by rewrite to_csv_relabel, to_csv_grouped.
Qed.

Lemma climatology_csv_omits_keys_witness :
  lambda_handler Sample.lenient
    (Sample.http_event "/v2/monthly_averages/12345678" None None) PNone =
    PDict {[ "statusCode" := PInt 200;
             "body" := PStr (json_dumps_str
                               (averages_csv Sample.lenient
                                  (if String.eqb "monthly_averages" "daily_averages"
                                   then Calendar.strftime_md
                                   else Calendar.strftime_m)
                                  12345678 Sample.series)) ]}
  /\ exists records,
       averages_csv Sample.lenient
         (if String.eqb "monthly_averages" "daily_averages"
          then Calendar.strftime_md else Calendar.strftime_m) 12345678 Sample.series
       = csv_writerow Sample.lenient [str_int 12345678] +:+ records.
Proof.
  apply (climatology_csv_omits_keys Sample.lenient _ PNone "monthly_averages"
           "12345678" [] (PBool false) 12345678 Sample.series);
    try reflexivity.
  - by right.
  - exact sample_series_distinct.
  - discriminate.
Defined.

(** The sample world's monthly climatology: January first, then
    December. *)
Example sample_monthly_csv :
  averages_csv Sample.lenient Calendar.strftime_m 12345678 Sample.series
  = join (str1 LF) ["12345678"; "1600"; "1400"; ""].
Proof. vm_compute. reflexivity. Qed.

Lemma lambda_handler_ignores_unread_parameters_witness :
  lambda_handler Sample.lenient
    (Sample.http_event "/v2/retrospective/12345678" None None) PNone
  = lambda_handler Sample.lenient
      (Sample.http_event "/v2/retrospective/12345678" None
         (Some (Sample.query [("format", "xml")]))) PNone.
Proof.
  apply (lambda_handler_ignores_unread_parameters Sample.lenient _ _ PNone
           "retrospective" ["12345678"]);
    [reflexivity | reflexivity | exact sample_events_differ_at_nested].
Defined.
